(** * A to-do list application: REST service and client list state

    Shallow embedding of [backend/server.js] (an Express service over a
    MongoDB collection) and of the list handlers of [frontend/src/App.js]
    (a React component), followed by the properties of both. *)

From Stdlib Require Import ZArith NArith List String Ascii Bool Lia.
From stdpp Require Import base option list gmap.

Local Open Scope Z_scope.

(** ** JavaScript values *)

(** A JavaScript string is a sequence of UTF-16 code units. *)
Definition jsstring := list N.

(** The code units of an ASCII literal. *)
Definition js (s : string) : jsstring :=
  map N_of_ascii (list_ascii_of_string s).

(** A value as [express.json()] hands it to a handler: [JUndefined] is what
    reading an absent property gives; numbers are the integral ones. *)
#[local] Unset Elimination Schemes.
Inductive JsValue :=
| JUndefined
| JNull
| JBool (b : bool)
| JNum (n : Z)
| JStr (s : jsstring)
| JArr (items : list JsValue)
| JObj (props : list (string * JsValue)).
#[local] Set Elimination Schemes.

Inductive JsType := TyUndefined | TyObject | TyBoolean | TyNumber | TyString.

Definition typeof (v : JsValue) : JsType :=
  match v with
  | JUndefined => TyUndefined
  | JNull | JArr _ | JObj _ => TyObject
  | JBool _ => TyBoolean
  | JNum _ => TyNumber
  | JStr _ => TyString
  end.

Definition JsType_eqb (a b : JsType) : bool :=
  match a, b with
  | TyUndefined, TyUndefined | TyObject, TyObject | TyBoolean, TyBoolean
  | TyNumber, TyNumber | TyString, TyString => true
  | _, _ => false
  end.

(** ToBoolean: what [!v] negates. *)
Definition truthy (v : JsValue) : bool :=
  match v with
  | JUndefined | JNull => false
  | JBool b => b
  | JNum n => negb (n =? 0)
  | JStr s => match s with [] => false | _ :: _ => true end
  | JArr _ | JObj _ => true
  end.

(** Property read [o.k] on a parsed JSON object. *)
Fixpoint get (o : list (string * JsValue)) (k : string) : JsValue :=
  match o with
  | [] => JUndefined
  | (k', v) :: o' => if String.eqb k' k then v else get o' k
  end.

(** White space as [String.prototype.trim] strips it: the WhiteSpace and
    LineTerminator code points of ECMAScript. *)
Definition is_whitespace (c : N) : bool :=
  (existsb (N.eqb c)
     [0x09; 0x0A; 0x0B; 0x0C; 0x0D; 0x20; 0xA0; 0x1680; 0x2028; 0x2029;
      0x202F; 0x205F; 0x3000; 0xFEFF]
   || ((0x2000 <=? c) && (c <=? 0x200A)))%N.

Fixpoint trimStart (s : jsstring) : jsstring :=
  match s with
  | c :: s' => if is_whitespace c then trimStart s' else s
  | [] => []
  end.

Definition trimEnd (s : jsstring) : jsstring := rev (trimStart (rev s)).

Definition trim (s : jsstring) : jsstring := trimEnd (trimStart s).

(** A string that is empty or made of white space only. *)
Definition blank (s : jsstring) : bool := forallb is_whitespace s.

(** ** The service: [backend/server.js] *)

Module Server.

(** A BSON ObjectId is twelve bytes, read here as one number. *)
Definition ObjectId := N.

(** [new Date()], in milliseconds. *)
Definition Date := Z.

(** The two entry points of the driver's [ObjectId] class that the handlers
    call on the path parameter. They belong to the [mongodb] package, not to
    this program, and are taken as parameters. [ObjectId_new] is only called
    on strings that [ObjectId_isValid] accepts. *)
Class Bson := {
  ObjectId_isValid : jsstring -> bool;
  ObjectId_new : jsstring -> ObjectId
}.

(** A document of the [tasks] collection. *)
Record Task := {
  _id : ObjectId;
  text : JsValue;
  completed : bool;
  createdAt : Date;
  updatedAt : option Date
}.

(** The object literal [newTask] of the POST handler, before the driver
    gives it an [_id]. *)
Record NewTask := {
  new_text : JsValue;
  new_completed : bool;
  new_createdAt : Date
}.

(** The object [updateDoc] of the PUT handler: a field is [None] while the
    property has not been assigned. *)
Record UpdateDoc := {
  set_text : option JsValue;
  set_completed : option bool;
  set_updatedAt : option Date
}.

Definition empty_updateDoc : UpdateDoc :=
  {| set_text := None; set_completed := None; set_updatedAt := None |}.

(** [Object.keys(updateDoc).length] *)
Definition keys_length (u : UpdateDoc) : nat :=
  let count {A} (p : option A) : nat :=
    match p with Some _ => 1%nat | None => 0%nat end in
  (count (set_text u) + count (set_completed u) + count (set_updatedAt u))%nat.

(** What the handler cannot decide itself: the clock, the [_id] the driver
    generates for an inserted document, and whether the k-th driver call of
    the request rejects (connection lost, time-out, ...). *)
Record Env := {
  now : Date;
  generated_id : ObjectId;
  fault : nat -> bool
}.

(** *** The driver *)

Inductive Outcome (A : Type) :=
| Resolved (a : A)
| Rejected.
Arguments Resolved {A} a.
Arguments Rejected {A}.

(** A driver call runs against the contents of the collection, in natural
    (insertion) order, and either resolves or rejects; the contents survive
    a rejection. *)
Definition Driver (A : Type) := list Task -> Outcome A * list Task.

Definition ret {A} (a : A) : Driver A := fun coll => (Resolved a, coll).

Definition bind {A B} (m : Driver A) (k : A -> Driver B) : Driver B :=
  fun coll =>
    match m coll with
    | (Resolved a, coll') => k a coll'
    | (Rejected, coll') => (Rejected, coll')
    end.

Notation "'await' x <- m ; k" := (bind m (fun x => k))
  (at level 10, x name, m at level 100, k at level 200).

Definition has_id (oid : ObjectId) (t : Task) : bool := (_id t =? oid)%N.

Definition with_id (oid : ObjectId) (d : NewTask) : Task :=
  {| _id := oid; text := new_text d; completed := new_completed d;
     createdAt := new_createdAt d; updatedAt := None |}.

(** [$set]: the assigned properties overwrite the document's. *)
Definition apply_set (u : UpdateDoc) (t : Task) : Task :=
  {| _id := _id t;
     text := match set_text u with Some v => v | None => text t end;
     completed :=
       match set_completed u with Some b => b | None => completed t end;
     createdAt := createdAt t;
     updatedAt :=
       match set_updatedAt u with Some d => Some d | None => updatedAt t end |}.

(** [find({}).toArray()] *)
Definition find_toArray (rejects : bool) : Driver (list Task) :=
  fun coll => if rejects then (Rejected, coll) else (Resolved coll, coll).

(** [insertOne(doc)]: the driver gives the document the [_id] it generated;
    the unique index on [_id] rejects a duplicate. Resolves to
    [insertedId]. *)
Definition insertOne (rejects : bool) (oid : ObjectId) (doc : NewTask)
  : Driver ObjectId :=
  fun coll =>
    if rejects then (Rejected, coll)
    else if existsb (has_id oid) coll then (Rejected, coll)
    else (Resolved oid, coll ++ [with_id oid doc]).

(** [findOne({_id: oid})]: the first match, or [null]. *)
Definition findOne (rejects : bool) (oid : ObjectId) : Driver (option Task) :=
  fun coll =>
    if rejects then (Rejected, coll)
    else (Resolved (List.find (has_id oid) coll), coll).

(** The first document with this [_id] replaced; the count of matches. *)
Fixpoint update_first (oid : ObjectId) (u : UpdateDoc) (coll : list Task)
  : nat * list Task :=
  match coll with
  | [] => (0%nat, [])
  | t :: coll' =>
      if has_id oid t then (1%nat, apply_set u t :: coll')
      else let (n, r) := update_first oid u coll' in (n, t :: r)
  end.

(** [updateOne({_id: oid}, {$set: u})]; resolves to [matchedCount]. *)
Definition updateOne (rejects : bool) (oid : ObjectId) (u : UpdateDoc)
  : Driver nat :=
  fun coll =>
    if rejects then (Rejected, coll)
    else let (n, coll') := update_first oid u coll in (Resolved n, coll').

(** The first document with this [_id] removed; the count of removals. *)
Fixpoint delete_first (oid : ObjectId) (coll : list Task) : nat * list Task :=
  match coll with
  | [] => (0%nat, [])
  | t :: coll' =>
      if has_id oid t then (1%nat, coll')
      else let (n, r) := delete_first oid coll' in (n, t :: r)
  end.

(** [deleteOne({_id: oid})]; resolves to [deletedCount]. *)
Definition deleteOne (rejects : bool) (oid : ObjectId) : Driver nat :=
  fun coll =>
    if rejects then (Rejected, coll)
    else let (n, coll') := delete_first oid coll in (Resolved n, coll').

(** *** Responses *)

Inductive Body :=
| NoBody                            (* [send()] *)
| Text (s : string)                 (* [send(s)] *)
| Message (s : string)              (* [json({ message: s })] *)
| JsonTask (t : option Task)        (* [json(t)], [null] for [None] *)
| JsonTasks (ts : list Task).       (* [json(ts)] *)

Record Response := { status : nat; body : Body }.

Definition respond (code : nat) (b : Body) : Response :=
  {| status := code; body := b |}.

(** [try { ... } catch (err) { res.status(500).send(msg) }] *)
Definition try_catch (m : Driver Response) (msg : string)
  : list Task -> Response * list Task :=
  fun coll =>
    match m coll with
    | (Resolved r, coll') => (r, coll')
    | (Rejected, coll') => (respond 500 (Text msg), coll')
    end.

(** The module variable [tasksCollection]: [None] while it is undefined,
    the handle with the contents of the collection behind it afterwards. *)
Definition Handler := option (list Task) -> Response * option (list Task).

(** [if (!tasksCollection) return res.status(503)...] and the [try] block
    that every handler consists of. *)
Definition route (m : Driver Response) (msg : string) : Handler :=
  fun tasksCollection =>
    match tasksCollection with
    | None => (respond 503 (Text "Database not initialized"), None)
    | Some coll =>
        let (r, coll') := try_catch m msg coll in (r, Some coll')
    end.

(** [req.body] as the handler finds it: the object that [express.json()]
    parsed, or [None] when the request left it undefined (no JSON body
    was parsed). *)
Definition ReqBody := option (list (string * JsValue)).

(** What a handler needs [req.body] for, [req.body.text] or the
    destructuring [const { text, completed } = req.body]: a TypeError when
    [req.body] is undefined, thrown inside the [try] block. *)
Definition properties_of (req_body : ReqBody)
  : Driver (list (string * JsValue)) :=
  fun coll =>
    match req_body with
    | Some o => (Resolved o, coll)
    | None => (Rejected, coll)
    end.

(** *** The four routes *)

Section Routes.
Context `{Bson}.

(** [app.get('/tasks')] *)
Definition get_tasks (env : Env) : Handler :=
  route
    (await tasks <- find_toArray (fault env 0);
     ret (respond 200 (JsonTasks tasks)))
    "Error fetching tasks".

(** [app.post('/tasks')] *)
Definition post_tasks (env : Env) (req_body : ReqBody) : Handler :=
  route
    (await body <- properties_of req_body;
     let newTask :=
       {| new_text := get body "text";
          new_completed := false;
          new_createdAt := now env |} in
     if negb (truthy (new_text newTask)) then
       ret (respond 400 (Message "Task text cannot be empty"))
     else
       await insertedId <-
         insertOne (fault env 0) (generated_id env) newTask;
       await insertedTask <- findOne (fault env 1) insertedId;
       ret (respond 201 (JsonTask insertedTask)))
    "Error adding task".

(** The assignments to [updateDoc] that precede the emptiness test:
    [text] unless its type is undefined, [completed] if its type is
    boolean. *)
Definition updateDoc_of (text completed : JsValue) : UpdateDoc :=
  let updateDoc := empty_updateDoc in
  let updateDoc :=
    if negb (JsType_eqb (typeof text) TyUndefined) then
      {| set_text := Some text;
         set_completed := set_completed updateDoc;
         set_updatedAt := set_updatedAt updateDoc |}
    else updateDoc in
  match completed with
  | JBool b =>
      {| set_text := set_text updateDoc;
         set_completed := Some b;
         set_updatedAt := set_updatedAt updateDoc |}
  | _ => updateDoc
  end.

(** [app.put('/tasks/:id')] *)
Definition put_task (env : Env) (params_id : jsstring)
  (req_body : ReqBody) : Handler :=
  route
    (let taskId := params_id in
     await body <- properties_of req_body;
     let text := get body "text" in
     let completed := get body "completed" in
     if negb (ObjectId_isValid taskId) then
       ret (respond 400 (Message "Invalid task ID format"))
     else
       let updateDoc := updateDoc_of text completed in
       if (keys_length updateDoc =? 0)%nat then
         ret (respond 400 (Message "No update fields provided"))
       else
         let updateDoc :=
           {| set_text := set_text updateDoc;
              set_completed := set_completed updateDoc;
              set_updatedAt := Some (now env) |} in
         await matchedCount <-
           updateOne (fault env 0) (ObjectId_new taskId) updateDoc;
         if (matchedCount =? 0)%nat then
           ret (respond 404 (Message "Task not found"))
         else
           await updatedTask <- findOne (fault env 1) (ObjectId_new taskId);
           ret (respond 200 (JsonTask updatedTask)))
    "Error updating task".

(** [app.delete('/tasks/:id')] *)
Definition delete_task (env : Env) (params_id : jsstring) : Handler :=
  route
    (let taskId := params_id in
     if negb (ObjectId_isValid taskId) then
       ret (respond 400 (Message "Invalid task ID format"))
     else
       await deletedCount <- deleteOne (fault env 0) (ObjectId_new taskId);
       if (deletedCount =? 0)%nat then
         ret (respond 404 (Message "Task not found"))
       else
         ret (respond 204 NoBody))
    "Error deleting task".

End Routes.

(** The document that an accepted update request leaves in place of [t]:
    [$set] of the final [updateDoc]. *)
Definition updated (env : Env) (req_body : list (string * JsValue))
  (t : Task) : Task :=
  let u := updateDoc_of (get req_body "text") (get req_body "completed") in
  apply_set
    {| set_text := set_text u; set_completed := set_completed u;
       set_updatedAt := Some (now env) |} t.

(** What an update request may not touch in a document: the id and the
    creation time, the text unless the body has one, [completed] unless the
    body has a boolean one. *)
Definition keeps_unsupplied (req_body : list (string * JsValue))
  (t t' : Task) : Prop :=
  _id t' = _id t
  /\ createdAt t' = createdAt t
  /\ (get req_body "text" = JUndefined -> text t' = text t)
  /\ ((forall b, get req_body "completed" <> JBool b) ->
      completed t' = completed t).

(** A client error is a 4xx response. *)
Definition client_error (r : Response) : bool :=
  ((400 <=? status r) && (status r <? 500))%nat.

(** The unique index on [_id]. *)
Definition unique_ids (coll : list Task) : Prop :=
  List.NoDup (map _id coll).

(** The driver's own encoding of an ObjectId on the wire: twenty-four
    hexadecimal digits. Used to run the handlers on concrete requests. *)
Definition hex_digit (c : N) : option N :=
  (if (48 <=? c) && (c <=? 57) then Some (c - 48)
   else if (65 <=? c) && (c <=? 70) then Some (c - 55)
   else if (97 <=? c) && (c <=? 102) then Some (c - 87)
   else None)%N.

Definition is_hex (c : N) : bool :=
  match hex_digit c with Some _ => true | None => false end.

Definition hex_value (s : jsstring) : N :=
  fold_left (fun acc c => (16 * acc + default 0 (hex_digit c))%N) s 0%N.

Definition hex24 : Bson :=
  {| ObjectId_isValid := fun s => (length s =? 24)%nat && forallb is_hex s;
     ObjectId_new := hex_value |}.

(** A request environment in which no driver call rejects, and a stored
    task with the id that the path parameter below denotes. *)
Definition sample_env : Env :=
  {| now := 1700000000000; generated_id := 1%N; fault := fun _ => false |}.

Definition sample_id : jsstring := js "0000000000000000000000a1".

Definition sample_task : Task :=
  {| _id := 161%N; text := JStr (js "buy milk"); completed := false;
     createdAt := 1690000000000; updatedAt := None |}.

(** The document that a create request stores when its insert goes
    through: [newTask] with the generated [_id]. *)
Definition created (env : Env) (req_body : list (string * JsValue)) : Task :=
  with_id (generated_id env)
    {| new_text := get req_body "text"; new_completed := false;
       new_createdAt := now env |}.

(** The requests that the four registered routes match. *)
Inductive Request :=
| GET_tasks
| POST_tasks (req_body : ReqBody)
| PUT_tasks_id (params_id : jsstring) (req_body : ReqBody)
| DELETE_tasks_id (params_id : jsstring).

(** The handler that [app] runs for a request. *)
Definition serve `{Bson} (env : Env) (req : Request) : Handler :=
  match req with
  | GET_tasks => get_tasks env
  | POST_tasks req_body => post_tasks env req_body
  | PUT_tasks_id params_id req_body => put_task env params_id req_body
  | DELETE_tasks_id params_id => delete_task env params_id
  end.

(** Requests served one after another, each in its own environment. *)
Fixpoint serve_all `{Bson} (reqs : list (Env * Request))
  (tasksCollection : option (list Task))
  : list Response * option (list Task) :=
  match reqs with
  | [] => ([], tasksCollection)
  | (env, req) :: reqs' =>
      let (r, tasksCollection') := serve env req tasksCollection in
      let (rs, tasksCollection'') := serve_all reqs' tasksCollection' in
      (r :: rs, tasksCollection'')
  end.

(** The validation that a handler makes before its first driver call. *)
Definition passes_validation `{Bson} (req : Request) : bool :=
  match req with
  | GET_tasks => true
  | POST_tasks None | PUT_tasks_id _ None => false
  | POST_tasks (Some body) => truthy (get body "text")
  | PUT_tasks_id params_id (Some body) =>
      ObjectId_isValid params_id
      && negb (keys_length
                 (updateDoc_of (get body "text")
                    (get body "completed")) =? 0)%nat
  | DELETE_tasks_id params_id => ObjectId_isValid params_id
  end.

(** The text that the [catch] block of a route sends. *)
Definition catch_text (req : Request) : string :=
  match req with
  | GET_tasks => "Error fetching tasks"
  | POST_tasks _ => "Error adding task"
  | PUT_tasks_id _ _ => "Error updating task"
  | DELETE_tasks_id _ => "Error deleting task"
  end.

(** The status codes a route can answer with. *)
Definition statuses (req : Request) : list nat :=
  match req with
  | GET_tasks => [200; 500; 503]
  | POST_tasks _ => [201; 400; 500; 503]
  | PUT_tasks_id _ _ => [200; 400; 404; 500; 503]
  | DELETE_tasks_id _ => [204; 400; 404; 500; 503]
  end%nat.

(** An environment whose second driver call rejects. *)
Definition sample_env_readback_fails : Env :=
  {| now := 1700000000000; generated_id := 1%N;
     fault := fun k => (k =? 1)%nat |}.

(** An environment whose first driver call rejects. *)
Definition sample_env_down : Env :=
  {| now := 1700000000000; generated_id := 1%N; fault := fun _ => true |}.

End Server.

(** ** The client: [frontend/src/App.js] *)

Module App.

(** A task object of the component: [{ id, text, completed }]. *)
Record Task := {
  id : Z;
  text : jsstring;
  completed : bool
}.

(** Arrays and objects are references into the JavaScript heap. *)
Definition loc := positive.

Inductive cell :=
| Obj (t : Task)
| Arr (elems : list loc).

Abbreviation heap := (gmap loc cell).

(** A computation on the heap; [None] is a read through a reference that
    does not hold what the code expects. *)
Definition Js (A : Type) := heap -> option (A * heap).

Definition ret {A} (a : A) : Js A := fun h => Some (a, h).

Definition bind {A B} (m : Js A) (k : A -> Js B) : Js B :=
  fun h =>
    match m h with
    | Some (a, h') => k a h'
    | None => None
    end.

Notation "'let*' x := m 'in' k" := (bind m (fun x => k))
  (at level 10, x name, m at level 100, k at level 200).

(** An object or array literal, or the array that [map] and [filter]
    return: a new cell at an unused reference, allocated with its final
    contents. No cell is ever written twice. *)
Definition alloc (c : cell) : Js loc :=
  fun h => let l := fresh (dom h) in Some (l, <[l := c]> h).

Definition read_obj (l : loc) : Js Task :=
  fun h => match h !! l with Some (Obj t) => Some (t, h) | _ => None end.

Definition read_arr (l : loc) : Js (list loc) :=
  fun h => match h !! l with Some (Arr elems) => Some (elems, h) | _ => None end.

(** The loop of [Array.prototype.map]: the callback on each element, left
    to right. *)
Fixpoint map_elems (f : loc -> Js loc) (elems : list loc) : Js (list loc) :=
  match elems with
  | [] => ret []
  | e :: elems' =>
      let* e' := f e in
      let* r := map_elems f elems' in
      ret (e' :: r)
  end.

(** [arr.map(f)]: a new array of the callback's results. *)
Definition Array_map (f : loc -> Js loc) (arr : loc) : Js loc :=
  let* elems := read_arr arr in
  let* r := map_elems f elems in
  alloc (Arr r).

(** The loop of [Array.prototype.filter]. *)
Fixpoint filter_elems (p : loc -> Js bool) (elems : list loc)
  : Js (list loc) :=
  match elems with
  | [] => ret []
  | e :: elems' =>
      let* keep := p e in
      let* r := filter_elems p elems' in
      ret (if keep : bool then e :: r else r)
  end.

(** [arr.filter(p)]: a new array of the elements the callback accepts. *)
Definition Array_filter (p : loc -> Js bool) (arr : loc) : Js loc :=
  let* elems := read_arr arr in
  let* r := filter_elems p elems in
  alloc (Arr r).

(** The two state variables of the component. *)
Record State := {
  tasks : loc;
  newTaskText : jsstring
}.

(** [handleAddTask], with the value [Date.now()] returns. *)
Definition handleAddTask (Date_now : Z) (st : State) : Js State :=
  match trim (newTaskText st) with
  | [] => ret st
  | _ :: _ =>
      let* elems := read_arr (tasks st) in
      let* task :=
        alloc (Obj {| id := Date_now; text := newTaskText st;
                      completed := false |}) in
      let* arr := alloc (Arr (elems ++ [task])) in
      ret {| tasks := arr; newTaskText := [] |}
  end.

(** The callback of [handleToggleComplete]:
    [task.id === taskId ? { ...task, completed: !task.completed } : task] *)
Definition toggle_callback (taskId : Z) (task : loc) : Js loc :=
  let* t := read_obj task in
  if id t =? taskId then
    alloc (Obj {| id := id t; text := text t;
                  completed := negb (completed t) |})
  else ret task.

Definition handleToggleComplete (taskId : Z) (st : State) : Js State :=
  let* arr := Array_map (toggle_callback taskId) (tasks st) in
  ret {| tasks := arr; newTaskText := newTaskText st |}.

(** The callback of [handleDeleteTask]: [task.id !== taskId] *)
Definition delete_callback (taskId : Z) (task : loc) : Js bool :=
  let* t := read_obj task in
  ret (negb (id t =? taskId)).

Definition handleDeleteTask (taskId : Z) (st : State) : Js State :=
  let* arr := Array_filter (delete_callback taskId) (tasks st) in
  ret {| tasks := arr; newTaskText := newTaskText st |}.

(** What the user does: type into the input ([onChange]), press the Add
    button at some time, click the text of a task or its Delete button. *)
Inductive Event :=
| Change (value : jsstring)
| ClickAdd (Date_now : Z)
| ClickToggle (taskId : Z)
| ClickDelete (taskId : Z).

Definition handle (ev : Event) (st : State) : Js State :=
  match ev with
  | Change value => ret {| tasks := tasks st; newTaskText := value |}
  | ClickAdd Date_now => handleAddTask Date_now st
  | ClickToggle taskId => handleToggleComplete taskId st
  | ClickDelete taskId => handleDeleteTask taskId st
  end.

(** The events one after another, each handled by the closures of the
    render that followed the one before. *)
Fixpoint run (evs : list Event) (st : State) : Js State :=
  match evs with
  | [] => ret st
  | ev :: evs' => let* st' := handle ev st in run evs' st'
  end.

(** The first render: [useState([])] and [useState('')]. *)
Definition initial : State * heap :=
  ({| tasks := 1%positive; newTaskText := [] |}, {[ 1%positive := Arr [] ]}).

(** *** Reading a list off the heap *)

Definition task_at (h : heap) (l : loc) : option Task :=
  match h !! l with Some (Obj t) => Some t | _ => None end.

(** The tasks an array reference denotes, in order. *)
Definition list_at (h : heap) (arr : loc) : option (list Task) :=
  match h !! arr with
  | Some (Arr elems) => mapM (task_at h) elems
  | _ => None
  end.

(** *** The lists the handlers are meant to produce *)

Definition flip (t : Task) : Task :=
  {| id := id t; text := text t; completed := negb (completed t) |}.

(** [completed] flipped on a task with this id, any other task as it is. *)
Definition toggled (taskId : Z) (t : Task) : Task :=
  if id t =? taskId then flip t else t.

Definition is_toggle (taskId : Z) (ev : Event) : bool :=
  match ev with ClickToggle i => i =? taskId | _ => false end.

Definition is_delete (taskId : Z) (ev : Event) : bool :=
  match ev with ClickDelete i => i =? taskId | _ => false end.

(** How many of the events toggle this id. *)
Definition toggles (taskId : Z) (evs : list Event) : nat :=
  length (List.filter (is_toggle taskId) evs).

(** What becomes of a task over the events that follow: gone with a delete
    of its id, otherwise [completed] flipped once per toggle of its id. *)
Definition survivor (evs : list Event) (t : Task) : list Task :=
  if existsb (is_delete (id t)) evs then []
  else [ {| id := id t; text := text t;
            completed := xorb (completed t) (Nat.odd (toggles (id t) evs)) |} ].

(** The list a sequence of events calls for, from a pending input: every
    add made with a non-blank input contributes the task it created, as
    the later events leave it. *)
Fixpoint expected (pending : jsstring) (evs : list Event) : list Task :=
  match evs with
  | [] => []
  | Change value :: evs' => expected value evs'
  | ClickAdd Date_now :: evs' =>
      if blank pending then expected pending evs'
      else
        survivor evs' {| id := Date_now; text := pending; completed := false |}
        ++ expected [] evs'
  | _ :: evs' => expected pending evs'
  end.

(** The text of the input once the events have been handled. *)
Fixpoint input_after (pending : jsstring) (evs : list Event) : jsstring :=
  match evs with
  | [] => pending
  | Change value :: evs' => input_after value evs'
  | ClickAdd _ :: evs' =>
      input_after (if blank pending then pending else []) evs'
  | _ :: evs' => input_after pending evs'
  end.

(** The times at which the Add button is pressed, in order. *)
Fixpoint add_times (evs : list Event) : list Z :=
  match evs with
  | [] => []
  | ClickAdd Date_now :: evs' => Date_now :: add_times evs'
  | _ :: evs' => add_times evs'
  end.

(** The list that the state denotes once a computation has run. *)
Definition list_after (m : Js State) (h : heap) : option (list Task) :=
  match m h with
  | Some (st', h') => list_at h' (tasks st')
  | None => None
  end.

(** A heap with a list of two tasks. *)
Definition sample_heap : heap :=
  <[ 1%positive := Arr [2%positive; 3%positive] ]>
    (<[ 2%positive := Obj {| id := 10; text := js "buy milk";
                             completed := false |} ]>
       (<[ 3%positive := Obj {| id := 11; text := js "walk dog";
                                completed := true |} ]> ∅)).

Definition sample_state : State :=
  {| tasks := 1%positive; newTaskText := [] |}.

End App.

(** ** Properties of the service *)

Module ServerFacts.
Import Server.

(** *** The driver on a collection with unique ids *)

Lemma unique_ids_split (before after : list Task) (t : Task) :
  unique_ids (before ++ t :: after) ->
  existsb (has_id (_id t)) before = false
  /\ existsb (has_id (_id t)) after = false.
Proof.
  unfold unique_ids. rewrite map_app. simpl. intros Hnd.
  apply List.NoDup_remove_2 in Hnd.
  split; apply not_true_is_false; intros Hex;
    apply existsb_exists in Hex as (x & Hin & Hx);
    unfold has_id in Hx; apply N.eqb_eq in Hx;
    apply Hnd, in_or_app; [left | right];
    rewrite <- Hx; now apply in_map.
Qed.

Lemma existsb_app_false {A} (p : A -> bool) (l1 l2 : list A) :
  existsb p l1 = false -> existsb p l2 = false -> existsb p (l1 ++ l2) = false.
Proof. intros H1 H2. now rewrite existsb_app, H1, H2. Qed.

Lemma has_id_self (t : Task) : has_id (_id t) t = true.
Proof. apply N.eqb_refl. Qed.

Lemma find_absent (oid : ObjectId) (coll : list Task) :
  existsb (has_id oid) coll = false -> List.find (has_id oid) coll = None.
Proof.
  induction coll as [|x coll IH]; simpl; [reflexivity|].
  destruct (has_id oid x); simpl; [discriminate | exact IH].
Qed.

Lemma find_split (oid : ObjectId) (before after : list Task) (t : Task) :
  existsb (has_id oid) before = false -> has_id oid t = true ->
  List.find (has_id oid) (before ++ t :: after) = Some t.
Proof.
  intros Hb Ht. induction before as [|x before IH]; simpl in *.
  - now rewrite Ht.
  - destruct (has_id oid x); simpl in *; [discriminate | now apply IH].
Qed.

Lemma update_first_absent (oid : ObjectId) (u : UpdateDoc) (coll : list Task) :
  existsb (has_id oid) coll = false -> update_first oid u coll = (0%nat, coll).
Proof.
  induction coll as [|x coll IH]; simpl; [reflexivity|].
  destruct (has_id oid x); simpl; [discriminate|].
  intros Hc. now rewrite (IH Hc).
Qed.

Lemma update_first_split (oid : ObjectId) (u : UpdateDoc)
  (before after : list Task) (t : Task) :
  existsb (has_id oid) before = false -> has_id oid t = true ->
  update_first oid u (before ++ t :: after)
  = (1%nat, before ++ apply_set u t :: after).
Proof.
  intros Hb Ht. induction before as [|x before IH]; simpl in *.
  - now rewrite Ht.
  - destruct (has_id oid x); simpl in *; [discriminate|].
    now rewrite (IH Hb).
Qed.

Lemma delete_first_absent (oid : ObjectId) (coll : list Task) :
  existsb (has_id oid) coll = false -> delete_first oid coll = (0%nat, coll).
Proof.
  induction coll as [|x coll IH]; simpl; [reflexivity|].
  destruct (has_id oid x); simpl; [discriminate|].
  intros Hc. now rewrite (IH Hc).
Qed.

Lemma delete_first_split (oid : ObjectId) (before after : list Task)
  (t : Task) :
  existsb (has_id oid) before = false -> has_id oid t = true ->
  delete_first oid (before ++ t :: after) = (1%nat, before ++ after).
Proof.
  intros Hb Ht. induction before as [|x before IH]; simpl in *.
  - now rewrite Ht.
  - destruct (has_id oid x); simpl in *; [discriminate|].
    now rewrite (IH Hb).
Qed.

(** The unique index is kept by every driver call that writes. *)
Lemma update_first_ids (oid : ObjectId) (u : UpdateDoc) (coll : list Task) :
  map _id (snd (update_first oid u coll)) = map _id coll.
Proof.
  induction coll as [|x coll IH]; simpl; [reflexivity|].
  destruct (has_id oid x); simpl; [reflexivity|].
  destruct (update_first oid u coll) as [n r]. simpl in *. now rewrite IH.
Qed.

Lemma delete_first_unique (oid : ObjectId) (coll : list Task) :
  unique_ids coll -> unique_ids (snd (delete_first oid coll)).
Proof.
  unfold unique_ids. induction coll as [|x coll IH]; simpl; [tauto|].
  intros Hnd. apply List.NoDup_cons_iff in Hnd as [Hx Hnd].
  destruct (has_id oid x); simpl; [exact Hnd|].
  specialize (IH Hnd).
  assert (Hsub : forall i, In i (map _id (snd (delete_first oid coll))) ->
                           In i (map _id coll)).
  { clear. induction coll as [|y coll IH]; simpl; [tauto|].
    destruct (has_id oid y); simpl; [tauto|].
    destruct (delete_first oid coll) as [n r]. simpl in *.
    intros i [Hi|Hi]; [now left | right; now apply IH]. }
  destruct (delete_first oid coll) as [n r]. simpl in *.
  apply List.NoDup_cons; [|exact IH]. intros Hin. now apply Hx, Hsub.
Qed.

Lemma insert_unique (oid : ObjectId) (doc : NewTask) (coll : list Task) :
  unique_ids coll -> existsb (has_id oid) coll = false ->
  unique_ids (coll ++ [with_id oid doc]).
Proof.
  unfold unique_ids. intros Hnd Hex. rewrite map_app. simpl.
  apply List.NoDup_app; [exact Hnd | apply List.NoDup_cons; [tauto | constructor] |].
  intros i Hin [Hi|[]]. subst i.
  apply in_map_iff in Hin as (x & Hx & Hin).
  assert (Hc : existsb (has_id oid) coll = true).
  { apply existsb_exists. exists x. split; [exact Hin|].
    unfold has_id. now apply N.eqb_eq. }
  congruence.
Qed.

(** *** The routes, case by case *)

Section RouteFacts.
Context `{Bson}.

Ltac step :=
  cbn -[existsb List.find update_first delete_first has_id updateDoc_of
        keys_length].

Ltac run_route :=
  unfold route, try_catch, bind, ret, properties_of, find_toArray, insertOne,
    findOne, updateOne, deleteOne; step.

Lemma get_tasks_ok (env : Env) (coll : list Task) :
  fault env 0 = false ->
  get_tasks env (Some coll) = (respond 200 (JsonTasks coll), Some coll).
Proof. intros Hf. unfold get_tasks. run_route. now rewrite Hf. Qed.

Lemma post_tasks_falsy (env : Env) (req_body : list (string * JsValue))
  (coll : list Task) :
  truthy (get req_body "text") = false ->
  post_tasks env (Some req_body) (Some coll)
  = (respond 400 (Message "Task text cannot be empty"), Some coll).
Proof. intros Ht. unfold post_tasks. run_route. now rewrite Ht. Qed.

Lemma post_tasks_truthy (env : Env) (req_body : list (string * JsValue))
  (coll : list Task) :
  truthy (get req_body "text") = true ->
  existsb (has_id (generated_id env)) coll = false ->
  fault env 0 = false -> fault env 1 = false ->
  let stored :=
    {| _id := generated_id env; text := get req_body "text";
       completed := false; createdAt := now env; updatedAt := None |} in
  post_tasks env (Some req_body) (Some coll)
  = (respond 201 (JsonTask (Some stored)), Some (coll ++ [stored])).
Proof.
  intros Ht Hfresh Hf0 Hf1 stored. unfold post_tasks. run_route.
  subst stored. rewrite Ht. step. rewrite Hf0, Hfresh, Hf1. step.
  rewrite find_split; [reflexivity | exact Hfresh | apply N.eqb_refl].
Qed.

Lemma put_task_invalid (env : Env) (params_id : jsstring)
  (req_body : list (string * JsValue)) (coll : list Task) :
  ObjectId_isValid params_id = false ->
  put_task env params_id (Some req_body) (Some coll)
  = (respond 400 (Message "Invalid task ID format"), Some coll).
Proof. intros Hv. unfold put_task. run_route. now rewrite Hv. Qed.

Lemma put_task_no_fields (env : Env) (params_id : jsstring)
  (req_body : list (string * JsValue)) (coll : list Task) :
  ObjectId_isValid params_id = true ->
  keys_length (updateDoc_of (get req_body "text") (get req_body "completed"))
  = 0%nat ->
  put_task env params_id (Some req_body) (Some coll)
  = (respond 400 (Message "No update fields provided"), Some coll).
Proof.
  intros Hv Hk. unfold put_task. run_route. rewrite Hv. step. now rewrite Hk.
Qed.

Lemma put_task_absent (env : Env) (params_id : jsstring)
  (req_body : list (string * JsValue)) (coll : list Task) :
  ObjectId_isValid params_id = true ->
  keys_length (updateDoc_of (get req_body "text") (get req_body "completed"))
  <> 0%nat ->
  existsb (has_id (ObjectId_new params_id)) coll = false ->
  fault env 0 = false ->
  put_task env params_id (Some req_body) (Some coll)
  = (respond 404 (Message "Task not found"), Some coll).
Proof.
  intros Hv Hk Habs Hf0. unfold put_task. run_route.
  apply Nat.eqb_neq in Hk. rewrite Hv. step. rewrite Hk, Hf0. step.
  now rewrite (update_first_absent _ _ _ Habs).
Qed.

Lemma put_task_found_any (env : Env) (params_id : jsstring)
  (req_body : list (string * JsValue)) (before after : list Task) (t : Task) :
  ObjectId_isValid params_id = true ->
  keys_length (updateDoc_of (get req_body "text") (get req_body "completed"))
  <> 0%nat ->
  ObjectId_new params_id = _id t ->
  existsb (has_id (_id t)) before = false ->
  fault env 0 = false ->
  put_task env params_id (Some req_body) (Some (before ++ t :: after))
  = (if fault env 1 then respond 500 (Text "Error updating task")
     else respond 200 (JsonTask (Some (updated env req_body t))),
     Some (before ++ updated env req_body t :: after)).
Proof.
  intros Hv Hk Hid Hb Hf0. unfold put_task. run_route.
  apply Nat.eqb_neq in Hk. rewrite Hv. step. rewrite Hk, Hf0, Hid. step.
  rewrite (update_first_split _ _ before after t Hb (has_id_self t)).
  step. unfold updated. destruct (fault env 1); step; [reflexivity|].
  rewrite find_split; [reflexivity | exact Hb | apply N.eqb_refl].
Qed.

Lemma put_task_found (env : Env) (params_id : jsstring)
  (req_body : list (string * JsValue)) (before after : list Task) (t : Task) :
  ObjectId_isValid params_id = true ->
  keys_length (updateDoc_of (get req_body "text") (get req_body "completed"))
  <> 0%nat ->
  ObjectId_new params_id = _id t ->
  existsb (has_id (_id t)) before = false ->
  fault env 0 = false -> fault env 1 = false ->
  put_task env params_id (Some req_body) (Some (before ++ t :: after))
  = (respond 200 (JsonTask (Some (updated env req_body t))),
     Some (before ++ updated env req_body t :: after)).
Proof.
  intros Hv Hk Hid Hb Hf0 Hf1.
  rewrite put_task_found_any by assumption. now rewrite Hf1.
Qed.

(** A request that left [req.body] undefined: the handler throws on its
    first read of the body and its [catch] block answers. *)
Lemma post_tasks_no_body (env : Env) (coll : list Task) :
  post_tasks env None (Some coll)
  = (respond 500 (Text "Error adding task"), Some coll).
Proof. reflexivity. Qed.

Lemma put_task_no_body (env : Env) (params_id : jsstring)
  (coll : list Task) :
  put_task env params_id None (Some coll)
  = (respond 500 (Text "Error updating task"), Some coll).
Proof. reflexivity. Qed.

Lemma delete_task_invalid (env : Env) (params_id : jsstring)
  (coll : list Task) :
  ObjectId_isValid params_id = false ->
  delete_task env params_id (Some coll)
  = (respond 400 (Message "Invalid task ID format"), Some coll).
Proof. intros Hv. unfold delete_task. run_route. now rewrite Hv. Qed.

Lemma delete_task_absent (env : Env) (params_id : jsstring)
  (coll : list Task) :
  ObjectId_isValid params_id = true ->
  existsb (has_id (ObjectId_new params_id)) coll = false ->
  fault env 0 = false ->
  delete_task env params_id (Some coll)
  = (respond 404 (Message "Task not found"), Some coll).
Proof.
  intros Hv Habs Hf0. unfold delete_task. run_route. rewrite Hv. step.
  rewrite Hf0. step. now rewrite (delete_first_absent _ _ Habs).
Qed.

Lemma delete_task_found (env : Env) (params_id : jsstring)
  (before after : list Task) (t : Task) :
  ObjectId_isValid params_id = true ->
  ObjectId_new params_id = _id t ->
  existsb (has_id (_id t)) before = false ->
  fault env 0 = false ->
  delete_task env params_id (Some (before ++ t :: after))
  = (respond 204 NoBody, Some (before ++ after)).
Proof.
  intros Hv Hid Hb Hf0. unfold delete_task. run_route.
  rewrite Hv. step. rewrite Hf0, Hid. step.
  now rewrite (delete_first_split _ before after t Hb (has_id_self t)).
Qed.

(** [updateDoc] is empty exactly when [text] is undefined and [completed]
    is not a boolean. *)
Lemma updateDoc_empty (text completed : JsValue) :
  keys_length (updateDoc_of text completed) = 0%nat
  <-> text = JUndefined /\ (forall b, completed <> JBool b).
Proof.
  split.
  - intros Hk. split.
    + destruct text; [reflexivity | destruct completed; discriminate ..].
    + intros b ->. destruct text; discriminate.
  - intros [-> Hc]. destruct completed; try reflexivity.
    now destruct (Hc b).
Qed.

(** *** Creating a task *)

(** C2: a create request whose text is non-empty (any truthy value, a
    non-empty string in particular) appends exactly one document with
    [completed = false], [createdAt] the time of the request and the id the
    driver generated; the response is 201 with that document as stored,
    and a list request made afterwards returns it. *)
Theorem post_creates_task (env env' : Env)
  (req_body : list (string * JsValue)) (coll : list Task) :
  truthy (get req_body "text") = true ->
  existsb (has_id (generated_id env)) coll = false ->
  fault env 0 = false -> fault env 1 = false -> fault env' 0 = false ->
  exists stored : Task,
    post_tasks env (Some req_body) (Some coll)
    = (respond 201 (JsonTask (Some stored)), Some (coll ++ [stored]))
    /\ _id stored = generated_id env
    /\ text stored = get req_body "text"
    /\ completed stored = false
    /\ createdAt stored = now env
    /\ updatedAt stored = None
    /\ exists listed : list Task,
         get_tasks env' (Some (coll ++ [stored]))
         = (respond 200 (JsonTasks listed), Some (coll ++ [stored]))
         /\ In stored listed.
Proof.
  intros Ht Hfresh Hf0 Hf1 Hf'.
  eexists. split; [apply post_tasks_truthy; assumption|].
  repeat (split; [reflexivity|]).
  eexists. split; [apply get_tasks_ok; assumption|].
  apply in_or_app. right. now left.
Qed.

(** C1, as the code has it: a create request never stores the empty
    string as a text. A request whose text is absent or empty (or falsy in
    another way: [null], [false], [0]) inserts nothing, and is answered
    with the client error 400 when its body was parsed. White space is not
    looked at: a text that is not empty and all white space is accepted,
    and when the generated id is new and no driver call fails the answer
    is 201 and the text is stored as it was sent. *)
Theorem post_never_stores_empty_text (env : Env) (req_body : ReqBody)
  (coll : list Task) :
  ((forall body, req_body = Some body -> truthy (get body "text") = false) ->
   snd (post_tasks env req_body (Some coll)) = Some coll
   /\ (forall body, req_body = Some body ->
         post_tasks env req_body (Some coll)
         = (respond 400 (Message "Task text cannot be empty"), Some coll)))
  /\ (forall coll' : list Task,
        snd (post_tasks env req_body (Some coll)) = Some coll' ->
        coll' = coll
        \/ exists (body : list (string * JsValue)) (t : Task),
             req_body = Some body
             /\ coll' = coll ++ [t]
             /\ text t = get body "text"
             /\ text t <> JStr [])
  /\ (forall (body : list (string * JsValue)) (s : jsstring),
        req_body = Some body ->
        get body "text" = JStr s ->
        s <> [] -> blank s = true ->
        existsb (has_id (generated_id env)) coll = false ->
        fault env 0 = false -> fault env 1 = false ->
        post_tasks env req_body (Some coll)
        = (respond 201 (JsonTask (Some (created env body))),
           Some (coll ++ [created env body]))
        /\ text (created env body) = JStr s).
Proof.
  split; [|split].
  - intros Hfalsy. destruct req_body as [body|]; [|split; [reflexivity|]].
    + rewrite (post_tasks_falsy env body coll (Hfalsy body eq_refl)).
      split; [reflexivity|]. now intros body' _.
    + intros body [=].
  - intros coll'. destruct req_body as [body|];
      [|rewrite post_tasks_no_body; intros [= <-]; now left].
    unfold post_tasks. run_route.
    destruct (truthy (get body "text")) eqn:Ht; step;
      [|intros [= <-]; now left].
    destruct (fault env 0); step; [intros [= <-]; now left|].
    destruct (existsb _ coll); step; [intros [= <-]; now left|].
    destruct (fault env 1); step; intros [= <-]; right;
      (eexists _, _; split; [reflexivity|]; split; [reflexivity|];
       split; [reflexivity|]);
      intros Hs; cbn in Hs; rewrite Hs in Ht; discriminate.
  - intros body s -> Hs Hne _ Hfresh Hf0 Hf1.
    assert (Ht : truthy (get body "text") = true).
    { rewrite Hs. destruct s; [now destruct Hne | reflexivity]. }
    split; [|exact Hs].
    exact (post_tasks_truthy env body coll Ht Hfresh Hf0 Hf1).
Qed.

(** C6, as the code has it: a create request whose text is omitted or
    the empty string leaves the collection as it was, and gets the client
    error 400 when its body was parsed. *)
Theorem post_rejects_empty_text (env : Env) (req_body : ReqBody)
  (coll : list Task) :
  (forall body, req_body = Some body ->
     get body "text" = JUndefined \/ get body "text" = JStr []) ->
  snd (post_tasks env req_body (Some coll)) = Some coll
  /\ (forall body, req_body = Some body ->
        post_tasks env req_body (Some coll)
        = (respond 400 (Message "Task text cannot be empty"), Some coll)
        /\ client_error (fst (post_tasks env req_body (Some coll))) = true).
Proof.
  intros Hs. destruct req_body as [body|].
  - assert (Hr : post_tasks env (Some body) (Some coll)
            = (respond 400 (Message "Task text cannot be empty"), Some coll)).
    { apply post_tasks_falsy. now destruct (Hs body eq_refl) as [-> | ->]. }
    rewrite Hr. split; [reflexivity|]. now intros body' _.
  - split; [reflexivity|]. intros body [=].
Qed.

(** *** Updating a task *)

(** The request assigns at least one property of [updateDoc]. *)
Lemma supplied_fields (req_body : list (string * JsValue)) :
  get req_body "text" <> JUndefined
  \/ (exists b, get req_body "completed" = JBool b) ->
  keys_length (updateDoc_of (get req_body "text") (get req_body "completed"))
  <> 0%nat.
Proof.
  intros Hs Hk. apply updateDoc_empty in Hk as [Ht Hc].
  destruct Hs as [Hs | [b Hb]]; [now apply Hs | now apply (Hc b)].
Qed.

Lemma updated_fields (env : Env) (req_body : list (string * JsValue))
  (t : Task) :
  _id (updated env req_body t) = _id t
  /\ createdAt (updated env req_body t) = createdAt t
  /\ updatedAt (updated env req_body t) = Some (now env)
  /\ text (updated env req_body t)
     = match get req_body "text" with JUndefined => text t | v => v end
  /\ completed (updated env req_body t)
     = match get req_body "completed" with
       | JBool b => b
       | _ => completed t
       end.
Proof.
  unfold updated.
  repeat (split; [reflexivity|]).
  split; destruct (get req_body "text"), (get req_body "completed");
    reflexivity.
Qed.

(** C3: an update request on the id of a stored document, supplying a text
    or a boolean completed, replaces that document alone; in the new
    document [text] is the supplied one if there is one and the old one
    otherwise, likewise [completed], [updatedAt] is the time of the request,
    and [_id] and [createdAt] are the old ones. The response is 200 with the
    new document when reading it back does not fail. *)
Theorem put_merges_supplied_fields (env : Env) (params_id : jsstring)
  (req_body : list (string * JsValue)) (before after : list Task) (t : Task) :
  unique_ids (before ++ t :: after) ->
  ObjectId_isValid params_id = true ->
  ObjectId_new params_id = _id t ->
  get req_body "text" <> JUndefined
  \/ (exists b, get req_body "completed" = JBool b) ->
  fault env 0 = false ->
  exists t' : Task,
    snd (put_task env params_id (Some req_body) (Some (before ++ t :: after)))
    = Some (before ++ t' :: after)
    /\ (fault env 1 = false ->
        fst (put_task env params_id (Some req_body) (Some (before ++ t :: after)))
        = respond 200 (JsonTask (Some t')))
    /\ _id t' = _id t
    /\ createdAt t' = createdAt t
    /\ updatedAt t' = Some (now env)
    /\ text t'
       = match get req_body "text" with JUndefined => text t | v => v end
    /\ completed t'
       = match get req_body "completed" with
         | JBool b => b
         | _ => completed t
         end.
Proof.
  intros Hu Hv Hid Hs Hf0.
  exists (updated env req_body t).
  rewrite put_task_found_any; try assumption.
  - split; [reflexivity|]. split; [|apply updated_fields].
    intros Hf1. cbn [fst]. now rewrite Hf1.
  - now apply supplied_fields.
  - now apply unique_ids_split in Hu.
Qed.

(** Whatever the request and whatever becomes of it, the documents keep
    their places, ids and creation times, and a field that the request
    does not supply keeps its value in every document. *)
Lemma put_task_frame (env : Env) (params_id : jsstring)
  (req_body : list (string * JsValue)) (coll coll' : list Task) :
  snd (put_task env params_id (Some req_body) (Some coll)) = Some coll' ->
  Forall2 (keeps_unsupplied req_body) coll coll'.
Proof.
  assert (Hrefl : forall l, Forall2 (keeps_unsupplied req_body) l l).
  { intros l. apply Forall2_same_length_lookup_2; [reflexivity|].
    intros i x y Hx Hy. rewrite Hx in Hy. injection Hy as <-.
    now repeat split. }
  unfold put_task. run_route.
  destruct (ObjectId_isValid params_id); step;
    [|intros [= <-]; apply Hrefl].
  destruct (keys_length _ =? 0)%nat; step; [intros [= <-]; apply Hrefl|].
  destruct (fault env 0); step; [intros [= <-]; apply Hrefl|].
  match goal with
  | |- context [update_first ?o ?u coll] =>
      assert (Hupd : Forall2 (keeps_unsupplied req_body) coll
                       (snd (update_first o u coll)));
      [|destruct (update_first o u coll) as [n r]]
  end.
  { induction coll as [|x coll IH]; cbn [update_first]; [constructor|].
    destruct (has_id _ x).
    - constructor; [|apply Hrefl].
      pose proof (updated_fields env req_body x) as (Hi & Hc & _ & Ht & Hd).
      unfold updated in *. repeat split; try assumption.
      + intros Hundef. now rewrite Ht, Hundef.
      + intros Hnb. rewrite Hd.
        destruct (get req_body "completed"); try reflexivity.
        exfalso. eapply Hnb. reflexivity.
    - destruct (update_first _ _ coll) as [n r]. constructor; [|exact IH].
      now repeat split. }
  cbn [snd] in Hupd. step.
  destruct (n =? 0)%nat; step; [now intros [= <-]|].
  destruct (fault env 1); step; now intros [= <-].
Qed.

(** C4, as the code has it, on an update request whose body was parsed:
    a malformed id is answered with the client error 400, whatever the
    body, the collection and the driver would do, so before any driver
    call, and that answer differs from the 404 of an id that matches
    nothing; a body with neither text nor completed is answered with a
    client error 400 whatever the id, the collection and the driver; a
    well-formed id of no document is answered 404 when the body supplies a
    text or a boolean completed and the driver call does not fail. *)
Theorem put_error_responses (env : Env) (params_id : jsstring)
  (req_body : list (string * JsValue)) (coll : list Task) :
  (ObjectId_isValid params_id = false ->
   put_task env params_id (Some req_body) (Some coll)
   = (respond 400 (Message "Invalid task ID format"), Some coll))
  /\ (get req_body "text" = JUndefined ->
      get req_body "completed" = JUndefined ->
      put_task env params_id (Some req_body) (Some coll)
      = (respond 400
           (Message (if ObjectId_isValid params_id
                     then "No update fields provided"
                     else "Invalid task ID format")),
         Some coll)
      /\ client_error
           (fst (put_task env params_id (Some req_body) (Some coll))) = true)
  /\ (ObjectId_isValid params_id = true ->
      get req_body "text" <> JUndefined
      \/ (exists b, get req_body "completed" = JBool b) ->
      existsb (has_id (ObjectId_new params_id)) coll = false ->
      fault env 0 = false ->
      put_task env params_id (Some req_body) (Some coll)
      = (respond 404 (Message "Task not found"), Some coll))
  /\ client_error (respond 400 (Message "Invalid task ID format")) = true
  /\ respond 400 (Message "Invalid task ID format")
     <> respond 404 (Message "Task not found").
Proof.
  split; [intros Hbad; now apply put_task_invalid|].
  split.
  { intros Ht Hc.
    assert (Hr : put_task env params_id (Some req_body) (Some coll)
            = (respond 400
                 (Message (if ObjectId_isValid params_id
                           then "No update fields provided"
                           else "Invalid task ID format")),
               Some coll)).
    { destruct (ObjectId_isValid params_id) eqn:Hv;
        [|now apply put_task_invalid].
      apply put_task_no_fields; [assumption|].
      apply updateDoc_empty. rewrite Ht, Hc.
      split; [reflexivity | discriminate]. }
    rewrite Hr. split; reflexivity. }
  split; [intros Hok Hs Habs Hf0;
          apply put_task_absent; auto using supplied_fields|].
  split; [reflexivity | discriminate].
Qed.

(** C9: a completed that is present without being a boolean is not a
    ground for rejection. Alone, it leaves [updateDoc] empty and the answer
    is 400, no update fields provided; next to a text, the request is
    handled as the one with the text alone, and on the id of a stored
    document it sets the text and leaves [completed] as it was. *)
Theorem put_ignores_non_boolean_completed (env : Env) (params_id : jsstring)
  (req_body : list (string * JsValue)) (coll : list Task) :
  ObjectId_isValid params_id = true ->
  get req_body "completed" <> JUndefined ->
  (forall b, get req_body "completed" <> JBool b) ->
  (get req_body "text" = JUndefined ->
   put_task env params_id (Some req_body) (Some coll)
   = (respond 400 (Message "No update fields provided"), Some coll))
  /\ (get req_body "text" <> JUndefined ->
      put_task env params_id (Some req_body) (Some coll)
      = put_task env params_id (Some [("text"%string, get req_body "text")])
          (Some coll))
  /\ (forall (before after : list Task) (t : Task),
        get req_body "text" <> JUndefined ->
        coll = before ++ t :: after -> unique_ids coll ->
        ObjectId_new params_id = _id t ->
        fault env 0 = false -> fault env 1 = false ->
        exists t' : Task,
          put_task env params_id (Some req_body) (Some coll)
          = (respond 200 (JsonTask (Some t')), Some (before ++ t' :: after))
          /\ text t' = get req_body "text"
          /\ completed t' = completed t).
Proof.
  intros Hv Hdef Hnb. split; [|split].
  - intros Ht. apply put_task_no_fields; [assumption|].
    apply updateDoc_empty. now split.
  - intros Ht. unfold put_task. run_route.
    destruct (get req_body "text") eqn:Et; [now destruct Ht | ..];
      destruct (get req_body "completed") eqn:Ec;
      try reflexivity; exfalso; eapply Hnb; reflexivity.
  - intros before after t Ht -> Hu Hid Hf0 Hf1.
    exists (updated env req_body t). split.
    + apply put_task_found; try assumption.
      * apply supplied_fields. now left.
      * now apply unique_ids_split in Hu.
    + destruct (updated_fields env req_body t) as (_ & _ & _ & Htx & Hco).
      rewrite Htx, Hco.
      destruct (get req_body "text"); [now destruct Ht | ..];
        destruct (get req_body "completed");
        try (split; reflexivity); exfalso; eapply Hnb; reflexivity.
Qed.

(** C10: an update request on the id of a stored document whose text is
    the empty string is accepted: the answer is 200 and the document is
    stored with the empty string as its text. *)
Theorem put_accepts_empty_text (env : Env) (params_id : jsstring)
  (req_body : list (string * JsValue)) (before after : list Task) (t : Task) :
  unique_ids (before ++ t :: after) ->
  ObjectId_isValid params_id = true ->
  ObjectId_new params_id = _id t ->
  get req_body "text" = JStr [] ->
  fault env 0 = false -> fault env 1 = false ->
  exists t' : Task,
    put_task env params_id (Some req_body) (Some (before ++ t :: after))
    = (respond 200 (JsonTask (Some t')), Some (before ++ t' :: after))
    /\ _id t' = _id t
    /\ text t' = JStr [].
Proof.
  intros Hu Hv Hid Ht Hf0 Hf1.
  exists (updated env req_body t). split.
  - apply put_task_found; try assumption.
    + apply supplied_fields. left. rewrite Ht. discriminate.
    + now apply unique_ids_split in Hu.
  - destruct (updated_fields env req_body t) as (Hi & _ & _ & Htx & _).
    split; [exact Hi|]. now rewrite Htx, Ht.
Qed.

(** *** Deleting a task *)

(** C5: a delete request on the well-formed id of a stored document
    removes that document and no other and is answered 204 without a body;
    a list request made afterwards returns a list without it, in which no
    document has its id, and a second delete of the id is answered 404. *)
Theorem delete_removes_task (env env2 env3 : Env) (params_id : jsstring)
  (before after : list Task) (t : Task) :
  unique_ids (before ++ t :: after) ->
  ObjectId_isValid params_id = true ->
  ObjectId_new params_id = _id t ->
  fault env 0 = false -> fault env2 0 = false -> fault env3 0 = false ->
  delete_task env params_id (Some (before ++ t :: after))
  = (respond 204 NoBody, Some (before ++ after))
  /\ get_tasks env2 (Some (before ++ after))
     = (respond 200 (JsonTasks (before ++ after)), Some (before ++ after))
  /\ ~ In t (before ++ after)
  /\ existsb (has_id (_id t)) (before ++ after) = false
  /\ delete_task env3 params_id (Some (before ++ after))
     = (respond 404 (Message "Task not found"), Some (before ++ after)).
Proof.
  intros Hu Hv Hid Hf Hf2 Hf3.
  destruct (unique_ids_split _ _ _ Hu) as [Hb Ha].
  assert (Hgone : existsb (has_id (_id t)) (before ++ after) = false)
    by now apply existsb_app_false.
  split; [now apply delete_task_found|].
  split; [now apply get_tasks_ok|].
  split.
  { intros Hin. assert (existsb (has_id (_id t)) (before ++ after) = true).
    { apply existsb_exists. exists t. split; [exact Hin | apply has_id_self]. }
    congruence. }
  split; [exact Hgone|].
  apply delete_task_absent; [assumption | now rewrite Hid | assumption].
Qed.

End RouteFacts.

(** *** The routes on concrete requests *)

Example create_then_list :
  let stored :=
    {| _id := 1%N; text := JStr (js "buy milk"); completed := false;
       createdAt := 1700000000000; updatedAt := None |} in
  post_tasks sample_env (Some [("text"%string, JStr (js "buy milk"))]) (Some [])
  = (respond 201 (JsonTask (Some stored)), Some [stored])
  /\ get_tasks sample_env (Some [stored])
     = (respond 200 (JsonTasks [stored]), Some [stored]).
Proof. split; reflexivity. Qed.

Example complete_then_fetch :
  let stored :=
    {| _id := 161%N; text := JStr (js "buy milk"); completed := true;
       createdAt := 1690000000000; updatedAt := Some 1700000000000 |} in
  put_task (H := hex24) sample_env sample_id
    (Some [("completed"%string, JBool true)]) (Some [sample_task])
  = (respond 200 (JsonTask (Some stored)), Some [stored]).
Proof. reflexivity. Qed.

Example malformed_and_absent_ids :
  put_task (H := hex24) sample_env (js "a1")
    (Some [("completed"%string, JBool true)]) (Some [sample_task])
  = (respond 400 (Message "Invalid task ID format"), Some [sample_task])
  /\ put_task (H := hex24) sample_env (js "0000000000000000000000a2")
       (Some [("completed"%string, JBool true)]) (Some [sample_task])
     = (respond 404 (Message "Task not found"), Some [sample_task]).
Proof. split; reflexivity. Qed.

Example driver_rejects_after_insert :
  let env :=
    {| now := 5; generated_id := 1%N; fault := fun k => (k =? 1)%nat |} in
  post_tasks env (Some [("text"%string, JStr (js "x"))]) (Some [])
  = (respond 500 (Text "Error adding task"),
     Some [ {| _id := 1%N; text := JStr (js "x"); completed := false;
               createdAt := 5; updatedAt := None |} ]).
Proof. reflexivity. Qed.

Example not_initialized :
  delete_task (H := hex24) sample_env sample_id None
  = (respond 503 (Text "Database not initialized"), None).
Proof. reflexivity. Qed.

(** The handlers keep the unique index on [_id]. *)
Lemma post_tasks_unique (env : Env) (req_body : list (string * JsValue))
  (coll coll' : list Task) :
  unique_ids coll ->
  snd (post_tasks env (Some req_body) (Some coll)) = Some coll' ->
  unique_ids coll'.
Proof.
  intros Hu.
  unfold post_tasks, route, try_catch, bind, ret, properties_of, insertOne,
    findOne.
  cbn -[existsb List.find has_id].
  destruct (truthy _); cbn -[existsb List.find has_id];
    [|now intros [= <-]].
  destruct (fault env 0); cbn -[existsb List.find has_id];
    [now intros [= <-]|].
  destruct (existsb _ coll) eqn:Hex; cbn -[existsb List.find has_id];
    [now intros [= <-]|].
  destruct (fault env 1); cbn -[existsb List.find has_id]; intros [= <-];
    now apply insert_unique.
Qed.

Lemma put_task_unique `{Bson} (env : Env) (params_id : jsstring)
  (req_body : list (string * JsValue)) (coll coll' : list Task) :
  unique_ids coll ->
  snd (put_task env params_id (Some req_body) (Some coll)) = Some coll' ->
  unique_ids coll'.
Proof.
  intros Hu.
  unfold put_task, route, try_catch, bind, ret, properties_of, updateOne,
    findOne.
  cbn -[update_first List.find keys_length updateDoc_of].
  destruct (ObjectId_isValid params_id);
    cbn -[update_first List.find keys_length updateDoc_of];
    [|now intros [= <-]].
  destruct (keys_length _ =? 0)%nat;
    cbn -[update_first List.find keys_length updateDoc_of];
    [now intros [= <-]|].
  destruct (fault env 0);
    cbn -[update_first List.find keys_length updateDoc_of];
    [now intros [= <-]|].
  match goal with
  | |- context [update_first ?o ?u coll] =>
      pose proof (update_first_ids o u coll) as Hids;
      destruct (update_first o u coll) as [n r]
  end.
  cbn -[List.find] in *.
  assert (Hr : unique_ids r) by (unfold unique_ids; now rewrite Hids).
  destruct (n =? 0)%nat; cbn -[List.find]; [now intros [= <-]|].
  destruct (fault env 1); cbn -[List.find]; now intros [= <-].
Qed.

Lemma delete_task_unique `{Bson} (env : Env) (params_id : jsstring)
  (coll coll' : list Task) :
  unique_ids coll ->
  snd (delete_task env params_id (Some coll)) = Some coll' ->
  unique_ids coll'.
Proof.
  intros Hu. unfold delete_task, route, try_catch, bind, ret, deleteOne.
  cbn -[delete_first].
  destruct (ObjectId_isValid params_id); cbn -[delete_first];
    [|now intros [= <-]].
  destruct (fault env 0); cbn -[delete_first]; [now intros [= <-]|].
  pose proof (delete_first_unique (ObjectId_new params_id) coll Hu) as Hd.
  destruct (delete_first _ coll) as [n r]. cbn in *.
  destruct (n =? 0)%nat; cbn; now intros [= <-].
Qed.

(** *** The theorems at concrete requests *)

Lemma sample_unique : unique_ids ([] ++ sample_task :: []).
Proof. unfold unique_ids. simpl. repeat constructor. intros []. Defined.

Lemma post_creates_task_witness :
  truthy (get [("text"%string, JStr (js "buy milk"))] "text") = true
  /\ exists stored : Task,
       post_tasks sample_env (Some [("text"%string, JStr (js "buy milk"))])
         (Some [sample_task])
       = (respond 201 (JsonTask (Some stored)),
          Some ([sample_task] ++ [stored]))
       /\ completed stored = false.
Proof.
  split; [reflexivity|].
  destruct (post_creates_task sample_env sample_env
              [("text"%string, JStr (js "buy milk"))] [sample_task]
              eq_refl eq_refl eq_refl eq_refl eq_refl)
    as (stored & Hpost & _ & _ & Hc & _).
  exists stored. split; [exact Hpost | exact Hc].
Defined.

(** C1 as it is written fails: a text of one space is stored. *)
Lemma post_stores_whitespace_text :
  let req_body := [("text"%string, JStr (js " "))] in
  let stored :=
    {| _id := 1%N; text := JStr (js " "); completed := false;
       createdAt := 1700000000000; updatedAt := None |} in
  blank (js " ") = true
  /\ post_tasks sample_env (Some req_body) (Some [])
     = (respond 201 (JsonTask (Some stored)), Some [stored])
  /\ ~ (client_error (fst (post_tasks sample_env (Some req_body) (Some []))) = true
        /\ snd (post_tasks sample_env (Some req_body) (Some [])) = Some []).
Proof.
  split; [reflexivity|]. split; [reflexivity|].
  intros [Hc _]. vm_compute in Hc. discriminate.
Qed.

Lemma post_never_stores_empty_text_witness :
  (truthy (get [("text"%string, JNull)] "text") = false
   /\ post_tasks sample_env (Some [("text"%string, JNull)])
        (Some [sample_task])
      = (respond 400 (Message "Task text cannot be empty"),
         Some [sample_task]))
  /\ (blank (js "  ") = true
      /\ post_tasks sample_env (Some [("text"%string, JStr (js "  "))])
           (Some [sample_task])
         = (respond 201
              (JsonTask
                 (Some (created sample_env
                          [("text"%string, JStr (js "  "))]))),
            Some ([sample_task]
                  ++ [created sample_env
                        [("text"%string, JStr (js "  "))]]))).
Proof.
  split; (split; [reflexivity|]).
  - refine (proj2 (proj1 (post_never_stores_empty_text sample_env
                            (Some [("text"%string, JNull)]) [sample_task])
                     _) _ eq_refl).
    intros body [= <-]. reflexivity.
  - refine (proj1 (proj2 (proj2 (post_never_stores_empty_text sample_env
                                   (Some [("text"%string, JStr (js "  "))])
                                   [sample_task]))
                     _ (js "  ") eq_refl eq_refl _ eq_refl eq_refl eq_refl
                     eq_refl)).
    discriminate.
Defined.

(** C6 as it is written fails: a create request that left [req.body]
    undefined, so with no text, is answered 500, not a client error. *)
Lemma post_without_body_answers_500 :
  post_tasks sample_env None (Some [sample_task])
  = (respond 500 (Text "Error adding task"), Some [sample_task])
  /\ ~ client_error (fst (post_tasks sample_env None (Some [sample_task])))
       = true.
Proof. split; [reflexivity|]. intros Hc. vm_compute in Hc. discriminate. Qed.

Lemma post_rejects_empty_text_witness :
  get [("text"%string, JStr [])] "text" = JStr []
  /\ snd (post_tasks sample_env (Some [("text"%string, JStr [])])
            (Some [sample_task]))
     = Some [sample_task]
  /\ client_error
       (fst (post_tasks sample_env (Some [("text"%string, JStr [])])
               (Some [sample_task]))) = true.
Proof.
  split; [reflexivity|].
  assert (Hs : forall body,
             Some [("text"%string, JStr [])] = Some body ->
             get body "text" = JUndefined \/ get body "text" = JStr []).
  { intros body [= <-]. right. reflexivity. }
  destruct (post_rejects_empty_text sample_env
              (Some [("text"%string, JStr [])]) [sample_task] Hs)
    as [Hstore Hanswer].
  split; [exact Hstore|].
  exact (proj2 (Hanswer _ eq_refl)).
Defined.

Lemma put_merges_supplied_fields_witness :
  ObjectId_isValid (Bson := hex24) sample_id = true
  /\ exists t' : Task,
       put_task (H := hex24) sample_env sample_id
         (Some [("completed"%string, JBool true)]) (Some ([] ++ sample_task :: []))
       = (respond 200 (JsonTask (Some t')), Some ([] ++ t' :: []))
       /\ text t' = JStr (js "buy milk")
       /\ completed t' = true.
Proof.
  split; [reflexivity|].
  destruct (put_merges_supplied_fields (H := hex24) sample_env sample_id
              [("completed"%string, JBool true)] [] [] sample_task
              sample_unique eq_refl eq_refl
              (or_intror (ex_intro _ true eq_refl)) eq_refl)
    as (t' & Hstore & Hresp & _ & _ & _ & Ht & Hc).
  exists t'. split; [|split; [exact Ht | exact Hc]].
  rewrite (surjective_pairing (put_task _ _ (Some _) _)).
  now rewrite Hstore, (Hresp eq_refl).
Defined.

(** C4 as it is written fails: an update request that left [req.body]
    undefined is answered 500 for a malformed id, not a client error: the
    body is destructured before the id is looked at. *)
Lemma put_without_body_answers_500 :
  ObjectId_isValid (Bson := hex24) (js "a1") = false
  /\ put_task (H := hex24) sample_env (js "a1") None (Some [sample_task])
     = (respond 500 (Text "Error updating task"), Some [sample_task])
  /\ ~ client_error
         (fst (put_task (H := hex24) sample_env (js "a1") None
                 (Some [sample_task]))) = true.
Proof.
  split; [reflexivity|]. split; [reflexivity|].
  intros Hc. vm_compute in Hc. discriminate.
Qed.

Lemma put_error_responses_witness :
  (ObjectId_isValid (Bson := hex24) (js "a1") = false
   /\ put_task (H := hex24) sample_env_down (js "a1")
        (Some [("completed"%string, JBool true)]) (Some [sample_task])
      = (respond 400 (Message "Invalid task ID format"), Some [sample_task]))
  /\ (get [] "text" = JUndefined
      /\ put_task (H := hex24) sample_env_down sample_id (Some [])
           (Some [sample_task])
         = (respond 400 (Message "No update fields provided"),
            Some [sample_task]))
  /\ (ObjectId_isValid (Bson := hex24) (js "0000000000000000000000a2") = true
      /\ put_task (H := hex24) sample_env (js "0000000000000000000000a2")
           (Some [("completed"%string, JBool true)]) (Some [sample_task])
         = (respond 404 (Message "Task not found"), Some [sample_task])).
Proof.
  split; [|split]; (split; [reflexivity|]).
  - exact (proj1 (put_error_responses (H := hex24) sample_env_down (js "a1")
                    [("completed"%string, JBool true)] [sample_task])
             eq_refl).
  - exact (proj1 (proj1 (proj2 (put_error_responses (H := hex24)
                                  sample_env_down sample_id []
                                  [sample_task]))
                    eq_refl eq_refl)).
  - exact (proj1 (proj2 (proj2 (put_error_responses (H := hex24) sample_env
                                  (js "0000000000000000000000a2")
                                  [("completed"%string, JBool true)]
                                  [sample_task])))
             eq_refl (or_intror (ex_intro _ true eq_refl)) eq_refl eq_refl).
Defined.

Lemma put_ignores_non_boolean_completed_witness :
  get [("completed"%string, JStr (js "yes"))] "completed" <> JUndefined
  /\ put_task (H := hex24) sample_env sample_id
       (Some [("completed"%string, JStr (js "yes"))]) (Some [sample_task])
     = (respond 400 (Message "No update fields provided"), Some [sample_task]).
Proof.
  split; [discriminate|].
  refine (proj1 (put_ignores_non_boolean_completed (H := hex24) sample_env
                   sample_id [("completed"%string, JStr (js "yes"))]
                   [sample_task] eq_refl _ _) eq_refl).
  - discriminate.
  - intros b. discriminate.
Defined.

Lemma put_accepts_empty_text_witness :
  get [("text"%string, JStr [])] "text" = JStr []
  /\ exists t' : Task,
       put_task (H := hex24) sample_env sample_id
         (Some [("text"%string, JStr [])]) (Some ([] ++ sample_task :: []))
       = (respond 200 (JsonTask (Some t')), Some ([] ++ t' :: []))
       /\ text t' = JStr [].
Proof.
  split; [reflexivity|].
  destruct (put_accepts_empty_text (H := hex24) sample_env sample_id
              [("text"%string, JStr [])] [] [] sample_task
              sample_unique eq_refl eq_refl eq_refl eq_refl eq_refl)
    as (t' & Hput & _ & Ht).
  exists t'. split; [exact Hput | exact Ht].
Defined.

Lemma delete_removes_task_witness :
  ObjectId_new (Bson := hex24) sample_id = _id sample_task
  /\ delete_task (H := hex24) sample_env sample_id
       (Some ([] ++ sample_task :: []))
     = (respond 204 NoBody, Some ([] ++ []))
  /\ delete_task (H := hex24) sample_env sample_id (Some ([] ++ []))
     = (respond 404 (Message "Task not found"), Some ([] ++ [])).
Proof.
  split; [reflexivity|].
  destruct (delete_removes_task (H := hex24) sample_env sample_env sample_env
              sample_id [] [] sample_task
              sample_unique eq_refl eq_refl eq_refl eq_refl eq_refl)
    as (Hdel & _ & _ & _ & Hagain).
  split; [exact Hdel | exact Hagain].
Defined.

End ServerFacts.

(** ** Properties of the client *)

Module AppFacts.
Import App.

(** *** White space *)

Lemma trimStart_nil (s : jsstring) : trimStart s = [] <-> blank s = true.
Proof.
  unfold blank. induction s as [|c s IH]; simpl; [tauto|].
  destruct (is_whitespace c); simpl; [exact IH|].
  split; discriminate.
Qed.

Lemma trimStart_head (s : jsstring) (c : N) (r : jsstring) :
  trimStart s = c :: r -> is_whitespace c = false.
Proof.
  induction s as [|d s IH]; simpl; [discriminate|].
  destruct (is_whitespace d) eqn:Ed; [exact IH|].
  now intros [= <- _].
Qed.

(** [s.trim() === ''] holds of the blank strings and of no other. *)
Lemma trim_nil (s : jsstring) : trim s = [] <-> blank s = true.
Proof.
  unfold trim, trimEnd. split.
  - intros Ht. apply trimStart_nil.
    apply (f_equal (@rev N)) in Ht. rewrite rev_involutive in Ht. simpl in Ht.
    apply trimStart_nil in Ht. unfold blank in Ht.
    destruct (trimStart s) as [|c r] eqn:Es; [reflexivity|].
    apply trimStart_head in Es.
    rewrite forallb_forall in Ht.
    rewrite (Ht c) in Es; [discriminate|].
    apply in_rev. rewrite rev_involutive. now left.
  - intros Hb. apply trimStart_nil in Hb. now rewrite Hb.
Qed.

(** *** The heap only grows *)

Lemma fresh_unused (h : heap) : h !! fresh (dom h) = None.
Proof. apply not_elem_of_dom, is_fresh. Qed.

Lemma alloc_extends (c : cell) (h : heap) : h ⊆ <[fresh (dom h) := c]> h.
Proof. apply insert_subseteq, fresh_unused. Qed.

Lemma task_at_extends (h h' : heap) (l : loc) (t : Task) :
  h ⊆ h' -> task_at h l = Some t -> task_at h' l = Some t.
Proof.
  intros Hsub. unfold task_at.
  destruct (h !! l) as [c|] eqn:El; [|discriminate].
  now rewrite (lookup_weaken _ _ _ _ El Hsub).
Qed.

Lemma tasks_at_extends (h h' : heap) (ls : list loc) (ts : list Task) :
  h ⊆ h' -> mapM (task_at h) ls = Some ts -> mapM (task_at h') ls = Some ts.
Proof.
  intros Hsub. rewrite !mapM_Some. intros Hall.
  eapply Forall2_impl; [exact Hall|].
  intros l t. now apply task_at_extends.
Qed.

Lemma list_at_extends (h h' : heap) (arr : loc) (ts : list Task) :
  h ⊆ h' -> list_at h arr = Some ts -> list_at h' arr = Some ts.
Proof.
  intros Hsub. unfold list_at.
  destruct (h !! arr) as [c|] eqn:El; [|discriminate].
  rewrite (lookup_weaken _ _ _ _ El Hsub).
  destruct c; [discriminate|]. now apply tasks_at_extends.
Qed.

(** A new array of references that denote [ts] denotes [ts]. *)
Lemma list_at_alloc (h : heap) (elems : list loc) (ts : list Task) :
  mapM (task_at h) elems = Some ts ->
  list_at (<[fresh (dom h) := Arr elems]> h) (fresh (dom h)) = Some ts.
Proof.
  intros Hts. unfold list_at. rewrite lookup_insert_eq.
  apply (tasks_at_extends h); [apply alloc_extends | exact Hts].
Qed.

Lemma list_at_elems (h : heap) (arr : loc) (ts : list Task) :
  list_at h arr = Some ts ->
  exists elems, h !! arr = Some (Arr elems) /\ mapM (task_at h) elems = Some ts.
Proof.
  unfold list_at. destruct (h !! arr) as [[t|elems]|]; try discriminate.
  intros Hts. now exists elems.
Qed.

(** *** The callbacks and the array methods *)

Lemma read_obj_task_at (h : heap) (l : loc) (t : Task) :
  task_at h l = Some t -> read_obj l h = Some (t, h).
Proof.
  unfold task_at, read_obj.
  destruct (h !! l) as [[t'|elems]|]; try discriminate. now intros [= ->].
Qed.

Lemma toggle_callback_spec (taskId : Z) (h : heap) (l : loc) (t : Task) :
  task_at h l = Some t ->
  exists l' h',
    toggle_callback taskId l h = Some (l', h')
    /\ h ⊆ h'
    /\ task_at h' l' = Some (toggled taskId t).
Proof.
  intros Ht. unfold toggle_callback, bind, toggled.
  rewrite (read_obj_task_at _ _ _ Ht).
  destruct (id t =? taskId).
  - eexists _, _. split; [reflexivity|]. split; [apply alloc_extends|].
    unfold task_at. now rewrite lookup_insert_eq.
  - exists l, h. now repeat split.
Qed.

Lemma map_elems_toggle (taskId : Z) (elems : list loc) :
  forall (h : heap) (ts : list Task),
    mapM (task_at h) elems = Some ts ->
    exists r h',
      map_elems (toggle_callback taskId) elems h = Some (r, h')
      /\ h ⊆ h'
      /\ mapM (task_at h') r = Some (map (toggled taskId) ts).
Proof.
  induction elems as [|e elems IH]; intros h ts Hts.
  - apply mapM_Some in Hts. apply Forall2_nil_inv_l in Hts as ->.
    exists [], h. now repeat split.
  - apply mapM_Some in Hts.
    apply Forall2_cons_inv_l in Hts as (t & ts0 & Ht & Hts0 & ->).
    destruct (toggle_callback_spec taskId h e t Ht) as (l' & h1 & Hc & Hs1 & Hl').
    apply mapM_Some in Hts0.
    destruct (IH h1 ts0 (tasks_at_extends _ _ _ _ Hs1 Hts0))
      as (r & h2 & Hm & Hs2 & Hr).
    exists (l' :: r), h2. cbn [map_elems map]. unfold bind at 1. rewrite Hc.
    unfold bind at 1. rewrite Hm. split; [reflexivity|].
    split; [now transitivity h1|].
    apply mapM_Some. constructor; [|now apply mapM_Some].
    now apply (task_at_extends h1).
Qed.

Lemma filter_elems_delete (taskId : Z) (elems : list loc) :
  forall (h : heap) (ts : list Task),
    mapM (task_at h) elems = Some ts ->
    exists r,
      filter_elems (delete_callback taskId) elems h = Some (r, h)
      /\ mapM (task_at h) r
         = Some (List.filter (fun t => negb (id t =? taskId)) ts).
Proof.
  induction elems as [|e elems IH]; intros h ts Hts.
  - apply mapM_Some in Hts. apply Forall2_nil_inv_l in Hts as ->.
    exists []. now split.
  - apply mapM_Some in Hts.
    apply Forall2_cons_inv_l in Hts as (t & ts0 & Ht & Hts0 & ->).
    apply mapM_Some in Hts0.
    destruct (IH h ts0 Hts0) as (r & Hf & Hr).
    assert (Hcb : delete_callback taskId e h
                  = Some (negb (id t =? taskId), h)).
    { unfold delete_callback, bind. now rewrite (read_obj_task_at _ _ _ Ht). }
    cbn [filter_elems List.filter]. unfold bind at 1. rewrite Hcb.
    unfold bind at 1. rewrite Hf. unfold ret.
    destruct (id t =? taskId); cbn [negb].
    + now exists r.
    + exists (e :: r). split; [reflexivity|].
      apply mapM_Some. constructor; [exact Ht | now apply mapM_Some].
Qed.

(** *** The three handlers on a list *)

Lemma handleToggleComplete_list (taskId : Z) (st : State) (h : heap)
  (ts : list Task) :
  list_at h (tasks st) = Some ts ->
  exists st' h',
    handleToggleComplete taskId st h = Some (st', h')
    /\ h ⊆ h'
    /\ h !! tasks st' = None
    /\ newTaskText st' = newTaskText st
    /\ list_at h' (tasks st') = Some (map (toggled taskId) ts).
Proof.
  intros Hl. apply list_at_elems in Hl as (elems & Harr & Hts).
  destruct (map_elems_toggle taskId elems h ts Hts) as (r & h1 & Hm & Hs1 & Hr).
  unfold handleToggleComplete, Array_map, bind, read_arr.
  rewrite Harr, Hm. unfold alloc, ret.
  eexists _, _. split; [reflexivity|]. simpl.
  split; [transitivity h1; [exact Hs1 | apply alloc_extends]|].
  split.
  { destruct (h !! fresh (dom h1)) as [c|] eqn:El; [|reflexivity].
    apply (lookup_weaken _ _ _ _ El) in Hs1.
    now rewrite fresh_unused in Hs1. }
  split; [reflexivity|]. now apply list_at_alloc.
Qed.

Lemma handleDeleteTask_list (taskId : Z) (st : State) (h : heap)
  (ts : list Task) :
  list_at h (tasks st) = Some ts ->
  exists st' h',
    handleDeleteTask taskId st h = Some (st', h')
    /\ h ⊆ h'
    /\ newTaskText st' = newTaskText st
    /\ list_at h' (tasks st')
       = Some (List.filter (fun t => negb (id t =? taskId)) ts).
Proof.
  intros Hl. apply list_at_elems in Hl as (elems & Harr & Hts).
  destruct (filter_elems_delete taskId elems h ts Hts) as (r & Hf & Hr).
  unfold handleDeleteTask, Array_filter, bind, read_arr.
  rewrite Harr, Hf. unfold alloc, ret.
  eexists _, _. split; [reflexivity|]. simpl.
  split; [apply alloc_extends|].
  split; [reflexivity|]. now apply list_at_alloc.
Qed.

Lemma handleAddTask_list (Date_now : Z) (st : State) (h : heap)
  (ts : list Task) :
  list_at h (tasks st) = Some ts ->
  exists st' h',
    handleAddTask Date_now st h = Some (st', h')
    /\ h ⊆ h'
    /\ if blank (newTaskText st) then st' = st /\ h' = h
       else newTaskText st' = []
            /\ list_at h' (tasks st')
               = Some (ts ++ [ {| id := Date_now; text := newTaskText st;
                                  completed := false |} ]).
Proof.
  intros Hl. unfold handleAddTask.
  destruct (trim (newTaskText st)) as [|c r] eqn:Et.
  - apply trim_nil in Et. rewrite Et. exists st, h. now repeat split.
  - assert (Hb : blank (newTaskText st) = false).
    { apply not_true_is_false. intros Hb. apply trim_nil in Hb. congruence. }
    rewrite Hb.
    apply list_at_elems in Hl as (elems & Harr & Hts).
    unfold bind, read_arr. rewrite Harr. unfold alloc, ret.
    eexists _, _. split; [reflexivity|]. simpl.
    set (task := {| id := Date_now; text := newTaskText st;
                    completed := false |}).
    set (h1 := <[fresh (dom h) := Obj task]> h).
    assert (Hs1 : h ⊆ h1) by apply alloc_extends.
    split; [transitivity h1; [exact Hs1 | apply alloc_extends]|].
    split; [reflexivity|].
    apply list_at_alloc, mapM_Some, Forall2_app.
    + apply mapM_Some. now apply (tasks_at_extends h).
    + constructor; [|constructor]. unfold task_at, h1.
      now rewrite lookup_insert_eq.
Qed.

(** *** A task over the events that follow *)

Lemma flip_flip (t : Task) : flip (flip t) = t.
Proof. destruct t as [i s c]. unfold flip. simpl. now rewrite negb_involutive. Qed.

Lemma toggled_toggled (taskId : Z) (t : Task) :
  toggled taskId (toggled taskId t) = t.
Proof.
  unfold toggled. destruct (id t =? taskId) eqn:Ei; simpl.
  - rewrite Ei. apply flip_flip.
  - now rewrite Ei.
Qed.

Lemma survivor_nil (t : Task) : survivor [] t = [t].
Proof. destruct t as [i s c]. unfold survivor. simpl. now rewrite xorb_false_r. Qed.

Lemma survivor_change (value : jsstring) (evs : list Event) (t : Task) :
  survivor (Change value :: evs) t = survivor evs t.
Proof. reflexivity. Qed.

Lemma survivor_add (Date_now : Z) (evs : list Event) (t : Task) :
  survivor (ClickAdd Date_now :: evs) t = survivor evs t.
Proof. reflexivity. Qed.

Lemma survivor_toggle (taskId : Z) (evs : list Event) (t : Task) :
  survivor (ClickToggle taskId :: evs) t = survivor evs (toggled taskId t).
Proof.
  unfold survivor, toggled, toggles. cbn [existsb is_delete orb List.filter is_toggle].
  rewrite (Z.eqb_sym taskId (id t)).
  destruct (id t =? taskId); [|reflexivity].
  cbn [flip id text completed length].
  destruct (existsb _ evs); [reflexivity|].
  rewrite Nat.odd_succ, <- Nat.negb_odd.
  now destruct (completed t), (Nat.odd _).
Qed.

Lemma survivor_delete (taskId : Z) (evs : list Event) (t : Task) :
  survivor (ClickDelete taskId :: evs) t
  = if negb (id t =? taskId) then survivor evs t else [].
Proof.
  unfold survivor, toggles. cbn [existsb is_delete orb List.filter is_toggle].
  rewrite (Z.eqb_sym taskId (id t)).
  now destruct (id t =? taskId).
Qed.

Lemma flat_map_filter {A B} (f : A -> list B) (p : A -> bool) (l : list A) :
  flat_map f (List.filter p l) = flat_map (fun a => if p a then f a else []) l.
Proof.
  induction l as [|a l IH]; simpl; [reflexivity|].
  destruct (p a); simpl; now rewrite IH.
Qed.

Lemma flat_map_map {A B C} (f : B -> list C) (g : A -> B) (l : list A) :
  flat_map f (map g l) = flat_map (fun a => f (g a)) l.
Proof. induction l as [|a l IH]; simpl; [reflexivity | now rewrite IH]. Qed.

Lemma flat_map_singleton {A} (l : list A) : flat_map (fun a => [a]) l = l.
Proof. induction l as [|a l IH]; simpl; [reflexivity | now rewrite IH]. Qed.

(** *** A run of events *)

Lemma run_list (evs : list Event) :
  forall (st : State) (h : heap) (ts : list Task),
    list_at h (tasks st) = Some ts ->
    exists st' h',
      run evs st h = Some (st', h')
      /\ h ⊆ h'
      /\ newTaskText st' = input_after (newTaskText st) evs
      /\ list_at h' (tasks st')
         = Some (flat_map (survivor evs) ts ++ expected (newTaskText st) evs).
Proof.
  induction evs as [|ev evs IH]; intros st h ts Hl.
  - exists st, h. split; [reflexivity|]. split; [reflexivity|].
    split; [reflexivity|]. cbn [expected].
    rewrite app_nil_r, (flat_map_ext _ _ survivor_nil), flat_map_singleton.
    exact Hl.
  - cbn [run]. unfold bind at 1. destruct ev as [value|Date_now|taskId|taskId].
    + cbn [handle ret].
      destruct (IH {| tasks := tasks st; newTaskText := value |} h ts Hl)
        as (st' & h' & Hrun & Hs & Hin & Hl').
      exists st', h'. now repeat split.
    + cbn [handle].
      destruct (handleAddTask_list Date_now st h ts Hl)
        as (st1 & h1 & Hadd & Hs1 & Hcase).
      rewrite Hadd. cbn [expected input_after].
      rewrite (flat_map_ext _ _ (survivor_add Date_now evs)).
      destruct (blank (newTaskText st)).
      * destruct Hcase as [-> ->].
        destruct (IH st h ts Hl) as (st' & h' & Hrun & Hs & Hin & Hl').
        exists st', h'. now repeat split.
      * destruct Hcase as [Htxt Hl1].
        destruct (IH st1 h1 _ Hl1) as (st' & h' & Hrun & Hs & Hin & Hl').
        exists st', h'. split; [exact Hrun|].
        split; [now transitivity h1|].
        rewrite Htxt in Hin, Hl'. split; [exact Hin|].
        rewrite Hl', flat_map_app. cbn [flat_map].
        now rewrite app_nil_r, <- app_assoc.
    + cbn [handle].
      destruct (handleToggleComplete_list taskId st h ts Hl)
        as (st1 & h1 & Htog & Hs1 & _ & Htxt & Hl1).
      rewrite Htog.
      destruct (IH st1 h1 _ Hl1) as (st' & h' & Hrun & Hs & Hin & Hl').
      exists st', h'. split; [exact Hrun|].
      split; [now transitivity h1|].
      rewrite Htxt in Hin, Hl'. split; [exact Hin|].
      rewrite Hl', flat_map_map. cbn [expected].
      now rewrite (flat_map_ext _ _ (survivor_toggle taskId evs)).
    + cbn [handle].
      destruct (handleDeleteTask_list taskId st h ts Hl)
        as (st1 & h1 & Hdel & Hs1 & Htxt & Hl1).
      rewrite Hdel.
      destruct (IH st1 h1 _ Hl1) as (st' & h' & Hrun & Hs & Hin & Hl').
      exists st', h'. split; [exact Hrun|].
      split; [now transitivity h1|].
      rewrite Htxt in Hin, Hl'. split; [exact Hin|].
      rewrite Hl', flat_map_filter. cbn [expected].
      now rewrite (flat_map_ext _ _ (survivor_delete taskId evs)).
Qed.

(** The tasks of [expected], one by one: a task is there exactly when some
    add, made while the input was not blank, created it, no later event
    deletes its id, and [completed] is the parity of the later toggles of
    its id. *)
Lemma expected_In (t : Task) (evs : list Event) :
  forall pending : jsstring,
    In t (expected pending evs) <->
    exists (pre : list Event) (Date_now : Z) (post : list Event),
      evs = pre ++ ClickAdd Date_now :: post
      /\ blank (input_after pending pre) = false
      /\ existsb (is_delete Date_now) post = false
      /\ t = {| id := Date_now; text := input_after pending pre;
                completed := Nat.odd (toggles Date_now post) |}.
Proof.
  induction evs as [|ev evs IH]; intros pending.
  - split; [intros [] | intros (pre & n & post & He & _)].
    now destruct pre.
  - split.
    + intros Hin.
      assert (Hrest : forall p', In t (expected p' evs) ->
                p' = input_after pending [ev] ->
                exists pre n post,
                  ev :: evs = pre ++ ClickAdd n :: post
                  /\ blank (input_after pending pre) = false
                  /\ existsb (is_delete n) post = false
                  /\ t = {| id := n; text := input_after pending pre;
                            completed := Nat.odd (toggles n post) |}).
      { intros p' Hp' Ep'. apply IH in Hp' as (pre & n & post & -> & Hb & Hd & ->).
        exists (ev :: pre), n, post. split; [reflexivity|].
        assert (Ei : input_after pending (ev :: pre) = input_after p' pre).
        { rewrite Ep'. now destruct ev. }
        rewrite Ei. now repeat split. }
      destruct ev as [value|n|i|i]; cbn [expected] in Hin;
        try (now apply (Hrest _ Hin)).
      destruct (blank pending) eqn:Eb.
      * apply (Hrest _ Hin). cbn [input_after]. now rewrite Eb.
      * apply in_app_or in Hin as [Hin|Hin].
        -- unfold survivor in Hin. cbn [id text completed] in Hin.
           destruct (existsb (is_delete n) evs) eqn:Ed; [destruct Hin|].
           destruct Hin as [<-|[]].
           exists [], n, evs. now repeat split.
        -- apply (Hrest _ Hin). cbn [input_after]. now rewrite Eb.
    + intros (pre & n & post & He & Hb & Hd & ->).
      destruct pre as [|e pre]; cbn [app] in He.
      * injection He as He1 He2. subst ev evs.
        cbn [input_after] in *. cbn [expected].
        rewrite Hb. apply in_or_app. left.
        unfold survivor. cbn [id text completed]. rewrite Hd. now left.
      * injection He as He1 He2. subst e evs.
        assert (Hgoal : In {| id := n; text := input_after pending (ev :: pre);
                              completed := Nat.odd (toggles n post) |}
                          (expected (input_after pending [ev])
                             (pre ++ ClickAdd n :: post))).
        { apply IH. exists pre, n, post.
          assert (Ei : input_after pending (ev :: pre)
                       = input_after (input_after pending [ev]) pre)
            by now destruct ev.
          rewrite <- Ei. now repeat split. }
        destruct ev as [value|m|i|i]; cbn [expected input_after] in *;
          try exact Hgoal.
        destruct (blank pending); [exact Hgoal|].
        apply in_or_app. now right.
Qed.

(** *** Toggling *)

(** C7: on any list, Toggle complete gives a list in which every task
    with the id has [completed] flipped and every other task is as it was;
    the list is a new array, at a reference unused before, and every cell
    of the heap is left as it was, so the old array still denotes the old
    list; toggling the same id again gives the original list back. *)
Theorem toggle_complete (taskId : Z) (st : State) (h : heap)
  (ts : list Task) :
  list_at h (tasks st) = Some ts ->
  exists (st' : State) (h' : heap),
    handleToggleComplete taskId st h = Some (st', h')
    /\ list_at h' (tasks st') = Some (map (toggled taskId) ts)
    /\ h !! tasks st' = None
    /\ (forall (l : loc) (c : cell), h !! l = Some c -> h' !! l = Some c)
    /\ list_at h' (tasks st) = Some ts
    /\ exists (st'' : State) (h'' : heap),
         handleToggleComplete taskId st' h' = Some (st'', h'')
         /\ list_at h'' (tasks st'') = Some ts.
Proof.
  intros Hl.
  destruct (handleToggleComplete_list taskId st h ts Hl)
    as (st' & h' & Htog & Hs & Hnew & _ & Hl').
  exists st', h'. split; [exact Htog|]. split; [exact Hl'|].
  split; [exact Hnew|].
  split; [intros l c Hc; exact (lookup_weaken _ _ _ _ Hc Hs)|].
  split; [now apply (list_at_extends h)|].
  destruct (handleToggleComplete_list taskId st' h' _ Hl')
    as (st'' & h'' & Htog' & _ & _ & _ & Hl'').
  exists st'', h''. split; [exact Htog'|].
  rewrite Hl'', map_map. f_equal.
  rewrite <- (map_id ts) at 2. apply map_ext, toggled_toggled.
Qed.

(** *** Sequences of actions *)

(** C8: after any sequence of events from the first render, the list
    holds exactly the tasks created by the adds that took effect (made with
    an input that was not blank) and whose id no later event deleted, each
    with [completed] the parity of the toggles of its id since it was
    added; so the ids of the list are the ids added and not deleted
    afterwards. *)
Theorem run_from_initial (evs : list Event) :
  exists (st : State) (h : heap) (ts : list Task),
    run evs (fst initial) (snd initial) = Some (st, h)
    /\ list_at h (tasks st) = Some ts
    /\ ts = expected [] evs
    /\ (forall t : Task,
          In t ts <->
          exists (pre : list Event) (Date_now : Z) (post : list Event),
            evs = pre ++ ClickAdd Date_now :: post
            /\ blank (input_after [] pre) = false
            /\ existsb (is_delete Date_now) post = false
            /\ t = {| id := Date_now; text := input_after [] pre;
                      completed := Nat.odd (toggles Date_now post) |})
    /\ (forall i : Z,
          In i (map id ts) <->
          exists (pre post : list Event),
            evs = pre ++ ClickAdd i :: post
            /\ blank (input_after [] pre) = false
            /\ existsb (is_delete i) post = false).
Proof.
  destruct (run_list evs (fst initial) (snd initial) [] eq_refl)
    as (st & h & Hrun & _ & _ & Hl).
  exists st, h, (expected [] evs).
  split; [exact Hrun|]. split; [exact Hl|]. split; [reflexivity|].
  split; [intros t; apply expected_In|].
  intros i. rewrite in_map_iff. split.
  - intros (t & <- & Hin).
    apply expected_In in Hin as (pre & n & post & He & Hb & Hd & ->).
    now exists pre, post.
  - intros (pre & post & He & Hb & Hd).
    eexists. split; [|apply expected_In; exists pre, i, post; eauto].
    reflexivity.
Qed.

(** *** The handlers on concrete lists *)

Example add_toggle_delete :
  let evs :=
    [Change (js "buy milk"); ClickAdd 10; Change (js "  "); ClickAdd 11;
     Change (js "walk dog"); ClickAdd 12; ClickToggle 10; ClickDelete 12;
     ClickToggle 10; ClickToggle 10] in
  expected [] evs
  = [ {| id := 10; text := js "buy milk"; completed := true |} ]
  /\ (st_h ← run evs (fst initial) (snd initial);
      list_at (snd st_h) (tasks (fst st_h)))
     = Some [ {| id := 10; text := js "buy milk"; completed := true |} ].
Proof. split; vm_compute; reflexivity. Qed.

(** Two adds in one millisecond share an id: one click toggles both. *)
Example same_millisecond :
  expected [] [Change (js "a"); ClickAdd 10; Change (js "b"); ClickAdd 10;
               ClickToggle 10]
  = [ {| id := 10; text := js "a"; completed := true |};
      {| id := 10; text := js "b"; completed := true |} ].
Proof. reflexivity. Qed.

Lemma toggle_complete_witness :
  list_at sample_heap (tasks sample_state)
  = Some [ {| id := 10; text := js "buy milk"; completed := false |};
           {| id := 11; text := js "walk dog"; completed := true |} ]
  /\ exists (st' : State) (h' : heap),
       handleToggleComplete 10 sample_state sample_heap = Some (st', h')
       /\ list_at h' (tasks st')
          = Some [ {| id := 10; text := js "buy milk"; completed := true |};
                   {| id := 11; text := js "walk dog"; completed := true |} ]
       /\ list_at h' (tasks sample_state)
          = Some [ {| id := 10; text := js "buy milk"; completed := false |};
                   {| id := 11; text := js "walk dog"; completed := true |} ].
Proof.
  split; [reflexivity|].
  destruct (toggle_complete 10 sample_state sample_heap _ eq_refl)
    as (st' & h' & Htog & Hl & _ & _ & Hold & _).
  exists st', h'. split; [exact Htog|]. split; [exact Hl | exact Hold].
Defined.

End AppFacts.

(** ** More on the service: what each response tells about the store *)

Module ServerMore.
Import Server ServerFacts.

(** The first document with an id, if there is one. *)
Lemma first_match (oid : ObjectId) (coll : list Task) :
  existsb (has_id oid) coll = false
  \/ exists (before : list Task) (t : Task) (after : list Task),
       coll = before ++ t :: after
       /\ _id t = oid
       /\ existsb (has_id oid) before = false.
Proof.
  induction coll as [|x coll IH]; [now left|].
  cbn [existsb]. destruct (has_id oid x) eqn:Ex.
  - right. exists [], x, coll. repeat split. now apply N.eqb_eq in Ex.
  - destruct IH as [IH | (before & t & after & -> & Hid & Hb)]; [now left|].
    right. exists (x :: before), t, after. repeat split; [exact Hid|].
    cbn [existsb]. now rewrite Ex.
Qed.

Section Cases.
Context `{Bson}.

Ltac step :=
  cbn -[existsb List.find update_first delete_first has_id updateDoc_of
        keys_length].

Ltac run_route :=
  unfold route, try_catch, bind, ret, properties_of, find_toArray, insertOne,
    findOne, updateOne, deleteOne; step.

(** Every way a create request can go. *)
Lemma post_tasks_cases (env : Env) (req_body : list (string * JsValue))
  (coll : list Task) :
  post_tasks env (Some req_body) (Some coll)
  = if negb (truthy (get req_body "text")) then
      (respond 400 (Message "Task text cannot be empty"), Some coll)
    else if fault env 0 || existsb (has_id (generated_id env)) coll then
      (respond 500 (Text "Error adding task"), Some coll)
    else
      (if fault env 1 then respond 500 (Text "Error adding task")
       else respond 201 (JsonTask (Some (created env req_body))),
       Some (coll ++ [created env req_body])).
Proof.
  unfold post_tasks, created. run_route.
  destruct (truthy (get req_body "text")); step; [|reflexivity].
  destruct (fault env 0); step; [reflexivity|].
  destruct (existsb _ coll) eqn:Hfresh; step; [reflexivity|].
  destruct (fault env 1); step; [reflexivity|].
  rewrite find_split; [reflexivity | exact Hfresh | apply N.eqb_refl].
Qed.

(** Every way an update request can go. *)
Lemma put_task_cases (env : Env) (params_id : jsstring)
  (req_body : list (string * JsValue)) (coll : list Task) :
  (ObjectId_isValid params_id = false
   /\ put_task env params_id (Some req_body) (Some coll)
      = (respond 400 (Message "Invalid task ID format"), Some coll))
  \/ (ObjectId_isValid params_id = true
      /\ keys_length
           (updateDoc_of (get req_body "text") (get req_body "completed"))
         = 0%nat
      /\ put_task env params_id (Some req_body) (Some coll)
         = (respond 400 (Message "No update fields provided"), Some coll))
  \/ (ObjectId_isValid params_id = true
      /\ fault env 0 = true
      /\ put_task env params_id (Some req_body) (Some coll)
         = (respond 500 (Text "Error updating task"), Some coll))
  \/ (ObjectId_isValid params_id = true
      /\ existsb (has_id (ObjectId_new params_id)) coll = false
      /\ put_task env params_id (Some req_body) (Some coll)
         = (respond 404 (Message "Task not found"), Some coll))
  \/ (ObjectId_isValid params_id = true
      /\ exists (before : list Task) (t : Task) (after : list Task),
           coll = before ++ t :: after
           /\ _id t = ObjectId_new params_id
           /\ existsb (has_id (_id t)) before = false
           /\ put_task env params_id (Some req_body) (Some coll)
              = (if fault env 1 then respond 500 (Text "Error updating task")
                 else respond 200 (JsonTask (Some (updated env req_body t))),
                 Some (before ++ updated env req_body t :: after))).
Proof.
  destruct (ObjectId_isValid params_id) eqn:Hv;
    [|left; split; [reflexivity | now apply put_task_invalid]].
  right.
  destruct (Nat.eq_dec
              (keys_length
                 (updateDoc_of (get req_body "text")
                    (get req_body "completed"))) 0%nat) as [Hk|Hk];
    [left; split; [reflexivity|]; split;
       [exact Hk | now apply put_task_no_fields]|].
  right.
  destruct (fault env 0) eqn:Hf0.
  { left. split; [reflexivity|]. split; [reflexivity|].
    unfold put_task. run_route. apply Nat.eqb_neq in Hk.
    rewrite Hv. step. now rewrite Hk, Hf0. }
  right.
  destruct (first_match (ObjectId_new params_id) coll)
    as [Habs | (before & t & after & -> & Hid & Hb)].
  - left. split; [reflexivity|]. split; [exact Habs|].
    now apply put_task_absent.
  - right. split; [reflexivity|]. exists before, t, after.
    rewrite <- Hid in Hb. repeat split; try assumption.
    now apply put_task_found_any.
Qed.

(** Every way a delete request can go. *)
Lemma delete_task_cases (env : Env) (params_id : jsstring)
  (coll : list Task) :
  (ObjectId_isValid params_id = false
   /\ delete_task env params_id (Some coll)
      = (respond 400 (Message "Invalid task ID format"), Some coll))
  \/ (ObjectId_isValid params_id = true
      /\ fault env 0 = true
      /\ delete_task env params_id (Some coll)
         = (respond 500 (Text "Error deleting task"), Some coll))
  \/ (ObjectId_isValid params_id = true
      /\ existsb (has_id (ObjectId_new params_id)) coll = false
      /\ delete_task env params_id (Some coll)
         = (respond 404 (Message "Task not found"), Some coll))
  \/ (ObjectId_isValid params_id = true
      /\ exists (before : list Task) (t : Task) (after : list Task),
           coll = before ++ t :: after
           /\ _id t = ObjectId_new params_id
           /\ existsb (has_id (_id t)) before = false
           /\ delete_task env params_id (Some coll)
              = (respond 204 NoBody, Some (before ++ after))).
Proof.
  destruct (ObjectId_isValid params_id) eqn:Hv;
    [|left; split; [reflexivity | now apply delete_task_invalid]].
  right.
  destruct (fault env 0) eqn:Hf0.
  { left. split; [reflexivity|]. split; [reflexivity|].
    unfold delete_task. run_route. rewrite Hv. step. now rewrite Hf0. }
  right.
  destruct (first_match (ObjectId_new params_id) coll)
    as [Habs | (before & t & after & -> & Hid & Hb)].
  - left. split; [reflexivity|]. split; [exact Habs|].
    now apply delete_task_absent.
  - right. split; [reflexivity|]. exists before, t, after.
    rewrite <- Hid in Hb. repeat split; try assumption.
    now apply delete_task_found.
Qed.

(** Every way a list request can go. *)
Lemma get_tasks_cases (env : Env) (coll : list Task) :
  get_tasks env (Some coll)
  = (if fault env 0 then respond 500 (Text "Error fetching tasks")
     else respond 200 (JsonTasks coll), Some coll).
Proof. unfold get_tasks. run_route. now destruct (fault env 0). Qed.

(** *** Before the connection *)

Lemma serve_not_initialized (env : Env) (req : Request) :
  serve env req None
  = (respond 503 (Text "Database not initialized"), None).
Proof. destruct req; reflexivity. Qed.

(** X1: while [tasksCollection] is undefined every request, on every
    route and whatever it carries, is answered 503, ahead of any
    validation, and no handler ever defines the variable: a sequence of
    requests gets as many 503 answers and leaves it undefined. *)
Theorem not_initialized_answers_503 (reqs : list (Env * Request)) :
  serve_all reqs None
  = (map (fun _ => respond 503 (Text "Database not initialized")) reqs,
     None).
Proof.
  induction reqs as [|[env req] reqs IH]; [reflexivity|].
  cbn [serve_all map]. now rewrite serve_not_initialized, IH.
Qed.

(** *** Status codes and the store *)

(** X2: a route answers with one of its own status codes and no other:
    200, 500 or 503 for a list request, 201, 400, 500 or 503 for a create
    request, 200, 400, 404, 500 or 503 for an update request, 204, 400,
    404, 500 or 503 for a delete request. *)
Theorem serve_statuses (env : Env) (req : Request)
  (tasksCollection : option (list Task)) :
  In (status (fst (serve env req tasksCollection))) (statuses req).
Proof.
  destruct tasksCollection as [coll|];
    [|rewrite serve_not_initialized; destruct req; cbn; tauto].
  destruct req as [|[req_body|]|params_id [req_body|]|params_id];
    cbn [serve]; rewrite ?post_tasks_no_body, ?put_task_no_body;
    try solve [cbn; tauto].
  - rewrite get_tasks_cases. destruct (fault env 0); cbn; tauto.
  - rewrite post_tasks_cases.
    destruct (negb _); [cbn; tauto|].
    destruct (_ || _); [cbn; tauto|].
    destruct (fault env 1); cbn; tauto.
  - destruct (put_task_cases env params_id req_body coll)
      as [[_ ->]|[(_ & _ & ->)|[(_ & _ & ->)|[(_ & _ & ->)|
          (_ & before & t & after & _ & _ & _ & ->)]]]];
      try (cbn; tauto).
    destruct (fault env 1); cbn; tauto.
  - destruct (delete_task_cases env params_id coll)
      as [[_ ->]|[(_ & _ & ->)|[(_ & _ & ->)|
          (_ & before & t & after & _ & _ & _ & ->)]]];
      cbn; tauto.
Qed.

(** X3: a request answered with a client error (400 or 404) or with 503
    has changed nothing in the store. *)
Theorem client_error_leaves_store (env : Env) (req : Request)
  (tasksCollection : option (list Task)) :
  client_error (fst (serve env req tasksCollection)) = true
  \/ status (fst (serve env req tasksCollection)) = 503%nat ->
  snd (serve env req tasksCollection) = tasksCollection.
Proof.
  destruct tasksCollection as [coll|];
    [|now rewrite serve_not_initialized].
  destruct req as [|[req_body|]|params_id [req_body|]|params_id];
    cbn [serve]; rewrite ?post_tasks_no_body, ?put_task_no_body;
    try solve [intros _; reflexivity].
  - now rewrite get_tasks_cases.
  - rewrite post_tasks_cases.
    destruct (negb _); [reflexivity|].
    destruct (_ || _); [reflexivity|].
    destruct (fault env 1); cbn; intros [Hc|Hc]; discriminate.
  - destruct (put_task_cases env params_id req_body coll)
      as [[_ ->]|[(_ & _ & ->)|[(_ & _ & ->)|[(_ & _ & ->)|
          (_ & before & t & after & _ & _ & _ & ->)]]]];
      try reflexivity.
    destruct (fault env 1); cbn; intros [Hc|Hc]; discriminate.
  - destruct (delete_task_cases env params_id coll)
      as [[_ ->]|[(_ & _ & ->)|[(_ & _ & ->)|
          (_ & before & t & after & _ & _ & _ & ->)]]];
      try reflexivity.
    cbn; intros [Hc|Hc]; discriminate.
Qed.

(** X4: a list request never changes the store, and a list that it sends
    is the whole collection, in the order of the store. *)
Theorem get_tasks_reads_only (env : Env)
  (tasksCollection : option (list Task)) :
  snd (get_tasks env tasksCollection) = tasksCollection
  /\ (forall ts : list Task,
        body (fst (get_tasks env tasksCollection)) = JsonTasks ts ->
        tasksCollection = Some ts
        /\ status (fst (get_tasks env tasksCollection)) = 200%nat).
Proof.
  destruct tasksCollection as [coll|]; [|split; [reflexivity|discriminate]].
  rewrite get_tasks_cases. split; [reflexivity|].
  destruct (fault env 0); cbn; [discriminate|].
  now intros ts [= ->].
Qed.

(** X5: when the driver rejects the first call of a request that has
    passed validation, the answer is 500 with the text of the route and
    the store is as before. *)
Theorem first_call_rejected (env : Env) (req : Request) (coll : list Task) :
  passes_validation req = true ->
  fault env 0 = true ->
  serve env req (Some coll)
  = (respond 500 (Text (catch_text req)), Some coll).
Proof.
  intros Hval Hf0.
  destruct req as [|[req_body|]|params_id [req_body|]|params_id];
    cbn [serve passes_validation catch_text] in *; try discriminate.
  - now rewrite get_tasks_cases, Hf0.
  - now rewrite post_tasks_cases, Hval, Hf0.
  - apply andb_prop in Hval as [Hv Hk].
    apply negb_true_iff, Nat.eqb_neq in Hk.
    destruct (put_task_cases env params_id req_body coll)
      as [[Hv' _]|[(_ & Hk' & _)|[(_ & _ & ->)|[(_ & _ & Hr)|
          (_ & before & t & after & _ & _ & _ & Hr)]]]];
      try congruence.
    + unfold put_task, route, try_catch, bind, properties_of, updateOne in *.
      revert Hr. cbn -[update_first keys_length updateDoc_of].
      rewrite Hv. cbn -[update_first keys_length updateDoc_of].
      apply Nat.eqb_neq in Hk. now rewrite Hk, Hf0.
    + unfold put_task, route, try_catch, bind, properties_of, updateOne in *.
      revert Hr. cbn -[update_first keys_length updateDoc_of].
      rewrite Hv. cbn -[update_first keys_length updateDoc_of].
      apply Nat.eqb_neq in Hk. now rewrite Hk, Hf0.
  - unfold delete_task, route, try_catch, bind, deleteOne.
    cbn -[delete_first]. rewrite Hval. cbn -[delete_first]. now rewrite Hf0.
Qed.

(** *** What a success status tells *)

(** X6: a create request answered 201 has appended exactly the document
    in the answer, which carries the generated id, an id that no document
    had, and the text of the request, which is truthy. *)
Theorem post_201_inserted (env : Env) (req_body : list (string * JsValue))
  (coll : list Task) :
  status (fst (post_tasks env (Some req_body) (Some coll))) = 201%nat ->
  post_tasks env (Some req_body) (Some coll)
  = (respond 201 (JsonTask (Some (created env req_body))),
     Some (coll ++ [created env req_body]))
  /\ truthy (get req_body "text") = true
  /\ existsb (has_id (generated_id env)) coll = false.
Proof.
  rewrite post_tasks_cases.
  destruct (truthy _); cbn [negb]; [|discriminate].
  destruct (fault env 0); cbn [orb]; [discriminate|].
  destruct (existsb _ coll); [discriminate|].
  destruct (fault env 1); [discriminate|]. now intros _.
Qed.

(** X7: when the insert of a create request goes through and reading the
    document back is rejected, the answer is 500 although the document is
    stored. *)
Theorem post_readback_rejected (env : Env)
  (req_body : list (string * JsValue)) (coll : list Task) :
  truthy (get req_body "text") = true ->
  existsb (has_id (generated_id env)) coll = false ->
  fault env 0 = false -> fault env 1 = true ->
  post_tasks env (Some req_body) (Some coll)
  = (respond 500 (Text "Error adding task"),
     Some (coll ++ [created env req_body])).
Proof.
  intros Ht Hfresh Hf0 Hf1.
  now rewrite post_tasks_cases, Ht, Hf0, Hfresh, Hf1.
Qed.

(** X8: when the update of an update request goes through and reading the
    document back is rejected, the answer is 500 although the document is
    updated. *)
Theorem put_readback_rejected (env : Env) (params_id : jsstring)
  (req_body : list (string * JsValue)) (before after : list Task) (t : Task) :
  ObjectId_isValid params_id = true ->
  get req_body "text" <> JUndefined
  \/ (exists b, get req_body "completed" = JBool b) ->
  ObjectId_new params_id = _id t ->
  existsb (has_id (_id t)) before = false ->
  fault env 0 = false -> fault env 1 = true ->
  put_task env params_id (Some req_body) (Some (before ++ t :: after))
  = (respond 500 (Text "Error updating task"),
     Some (before ++ updated env req_body t :: after)).
Proof.
  intros Hv Hs Hid Hb Hf0 Hf1.
  rewrite put_task_found_any; auto using supplied_fields.
  now rewrite Hf1.
Qed.

(** X9: an update request answered 200 has replaced the first document
    with the id of the request, and that one alone, by the document in the
    answer. *)
Theorem put_200_updated (env : Env) (params_id : jsstring)
  (req_body : list (string * JsValue)) (coll : list Task) :
  status (fst (put_task env params_id (Some req_body) (Some coll))) = 200%nat ->
  exists (before : list Task) (t : Task) (after : list Task),
    coll = before ++ t :: after
    /\ _id t = ObjectId_new params_id
    /\ existsb (has_id (_id t)) before = false
    /\ put_task env params_id (Some req_body) (Some coll)
       = (respond 200 (JsonTask (Some (updated env req_body t))),
          Some (before ++ updated env req_body t :: after)).
Proof.
  destruct (put_task_cases env params_id req_body coll)
    as [[_ ->]|[(_ & _ & ->)|[(_ & _ & ->)|[(_ & _ & ->)|
        (_ & before & t & after & Hc & Hid & Hb & Hr)]]]];
    try discriminate.
  rewrite Hr. destruct (fault env 1); [discriminate|].
  intros _. now exists before, t, after.
Qed.

(** X10: a delete request answered 204 has removed the first document
    with the id of the request and no other, so exactly one document. *)
Theorem delete_204_removed (env : Env) (params_id : jsstring)
  (coll : list Task) :
  status (fst (delete_task env params_id (Some coll))) = 204%nat ->
  exists (before : list Task) (t : Task) (after : list Task),
    coll = before ++ t :: after
    /\ _id t = ObjectId_new params_id
    /\ existsb (has_id (_id t)) before = false
    /\ snd (delete_task env params_id (Some coll)) = Some (before ++ after)
    /\ length coll = S (length (before ++ after)).
Proof.
  destruct (delete_task_cases env params_id coll)
    as [[_ ->]|[(_ & _ & ->)|[(_ & _ & ->)|
        (_ & before & t & after & Hc & Hid & Hb & Hr)]]];
    try discriminate.
  intros _. exists before, t, after. rewrite Hr.
  repeat split; try assumption.
  subst coll. rewrite !length_app. cbn [length]. lia.
Qed.

(** *** What an update request cannot do *)

(** X11: whatever an update request carries and however it ends, the
    store has the same documents at the same places afterwards, with the
    same ids and creation times, and a field that the body does not supply
    has kept its value in every one of them. *)
Theorem put_never_touches_unsupplied (env : Env) (params_id : jsstring)
  (req_body : list (string * JsValue)) (coll coll' : list Task) :
  snd (put_task env params_id (Some req_body) (Some coll)) = Some coll' ->
  Forall2 (keeps_unsupplied req_body) coll coll'
  /\ map _id coll' = map _id coll
  /\ map createdAt coll' = map createdAt coll
  /\ length coll' = length coll.
Proof.
  intros Hput. apply put_task_frame in Hput.
  split; [exact Hput|].
  induction Hput as [|t t' coll coll' (Hi & Hc & _) _ (IHi & IHc & IHl)];
    [now repeat split|].
  cbn [map length]. now rewrite Hi, Hc, IHi, IHc, IHl.
Qed.

(** *** Errors of the delete route *)

(** X13: on a delete request a malformed id is answered 400 whatever the
    collection and the driver would do, so before any driver call, and a
    well-formed id of no document is answered 404; neither changes the
    store. *)
Theorem delete_error_responses (env : Env) (malformed wellformed : jsstring)
  (coll : list Task) :
  ObjectId_isValid malformed = false ->
  ObjectId_isValid wellformed = true ->
  existsb (has_id (ObjectId_new wellformed)) coll = false ->
  fault env 0 = false ->
  (forall (env' : Env) (coll' : list Task),
     delete_task env' malformed (Some coll')
     = (respond 400 (Message "Invalid task ID format"), Some coll'))
  /\ delete_task env wellformed (Some coll)
     = (respond 404 (Message "Task not found"), Some coll).
Proof.
  intros Hbad Hok Habs Hf0. split.
  - intros env' coll'. now apply delete_task_invalid.
  - now apply delete_task_absent.
Qed.

(** *** Requests one after another *)

(** X14: deleting, by its id, the document that a create request has just
    stored gives the collection back as it was before the two requests. *)
Theorem create_then_delete (env env' : Env)
  (req_body : list (string * JsValue)) (params_id : jsstring)
  (coll : list Task) :
  truthy (get req_body "text") = true ->
  existsb (has_id (generated_id env)) coll = false ->
  fault env 0 = false ->
  ObjectId_isValid params_id = true ->
  ObjectId_new params_id = generated_id env ->
  fault env' 0 = false ->
  delete_task env' params_id (snd (post_tasks env (Some req_body) (Some coll)))
  = (respond 204 NoBody, Some coll).
Proof.
  intros Ht Hfresh Hf0 Hv Hid Hf0'.
  rewrite post_tasks_cases, Ht, Hf0, Hfresh. cbn [negb orb snd].
  rewrite (delete_task_found env' params_id coll [] (created env req_body));
    try assumption.
  now rewrite app_nil_r.
Qed.



Lemma route_keeps_handle (m : Driver Response) (msg : string)
  (coll : list Task) :
  exists coll' : list Task, snd (route m msg (Some coll)) = Some coll'.
Proof.
  unfold route. destruct (try_catch m msg coll) as [r coll'].
  now exists coll'.
Qed.

Lemma serve_keeps_handle (env : Env) (req : Request) (coll : list Task) :
  exists coll' : list Task, snd (serve env req (Some coll)) = Some coll'.
Proof. destruct req; apply route_keeps_handle. Qed.

Lemma serve_unique (env : Env) (req : Request) (coll coll' : list Task) :
  unique_ids coll ->
  snd (serve env req (Some coll)) = Some coll' ->
  unique_ids coll'.
Proof.
  intros Hu.
  destruct req as [|[req_body|]|params_id [req_body|]|params_id];
    cbn [serve]; rewrite ?post_tasks_no_body, ?put_task_no_body;
    try solve [now intros [= <-]].
  - rewrite get_tasks_cases. now intros [= <-].
  - now apply post_tasks_unique.
  - now apply put_task_unique.
  - now apply delete_task_unique.
Qed.

(** X12: served one after another from a collection whose ids are
    unique, any requests, with any driver failures among them, each get an
    answer and leave a collection whose ids are unique. *)
Theorem serve_all_unique_ids (reqs : list (Env * Request)) :
  forall coll : list Task,
    unique_ids coll ->
    exists coll' : list Task,
      snd (serve_all reqs (Some coll)) = Some coll'
      /\ unique_ids coll'
      /\ length (fst (serve_all reqs (Some coll))) = length reqs.
Proof.
  induction reqs as [|[env req] reqs IH]; intros coll Hu.
  - exists coll. now repeat split.
  - cbn [serve_all].
    destruct (serve_keeps_handle env req coll) as [coll1 H1].
    pose proof (serve_unique env req coll coll1 Hu H1) as Hu1.
    destruct (serve env req (Some coll)) as [r tc1]. cbn [snd] in H1.
    subst tc1. destruct (IH coll1 Hu1) as (coll' & H' & Hu' & Hlen).
    destruct (serve_all reqs (Some coll1)) as [rs tc']. cbn [fst snd] in *.
    exists coll'. repeat split; try assumption. cbn [length]. now f_equal.
Qed.

End Cases.

(** *** The theorems at concrete requests *)

Lemma client_error_leaves_store_witness :
  client_error
    (fst (serve (H := hex24) sample_env (PUT_tasks_id (js "a1") (Some []))
            (Some [sample_task]))) = true
  /\ snd (serve (H := hex24) sample_env (PUT_tasks_id (js "a1") (Some []))
            (Some [sample_task]))
     = Some [sample_task].
Proof.
  split; [reflexivity|].
  exact (client_error_leaves_store (H := hex24) sample_env
           (PUT_tasks_id (js "a1") (Some [])) (Some [sample_task])
           (or_introl eq_refl)).
Defined.

Lemma get_tasks_reads_only_witness :
  body (fst (get_tasks sample_env (Some [sample_task])))
  = JsonTasks [sample_task]
  /\ status (fst (get_tasks sample_env (Some [sample_task]))) = 200%nat.
Proof.
  split; [reflexivity|].
  exact (proj2 (proj2 (get_tasks_reads_only sample_env (Some [sample_task]))
                  [sample_task] eq_refl)).
Defined.

Lemma first_call_rejected_witness :
  passes_validation (H := hex24) (DELETE_tasks_id sample_id) = true
  /\ serve (H := hex24) sample_env_down (DELETE_tasks_id sample_id)
       (Some [sample_task])
     = (respond 500 (Text "Error deleting task"), Some [sample_task]).
Proof.
  split; [reflexivity|].
  exact (first_call_rejected (H := hex24) sample_env_down
           (DELETE_tasks_id sample_id) [sample_task] eq_refl eq_refl).
Defined.

Lemma post_201_inserted_witness :
  status (fst (post_tasks sample_env (Some [("text"%string, JStr (js "buy milk"))])
                 (Some [sample_task]))) = 201%nat
  /\ existsb (has_id (generated_id sample_env)) [sample_task] = false.
Proof.
  split; [reflexivity|].
  exact (proj2 (proj2 (post_201_inserted sample_env
                         [("text"%string, JStr (js "buy milk"))]
                         [sample_task] eq_refl))).
Defined.

Lemma post_readback_rejected_witness :
  fault sample_env_readback_fails 1 = true
  /\ post_tasks sample_env_readback_fails
       (Some [("text"%string, JStr (js "buy milk"))]) (Some [sample_task])
     = (respond 500 (Text "Error adding task"),
        Some ([sample_task]
              ++ [created sample_env_readback_fails
                    [("text"%string, JStr (js "buy milk"))]])).
Proof.
  split; [reflexivity|].
  exact (post_readback_rejected sample_env_readback_fails
           [("text"%string, JStr (js "buy milk"))] [sample_task]
           eq_refl eq_refl eq_refl eq_refl).
Defined.

Lemma put_readback_rejected_witness :
  fault sample_env_readback_fails 1 = true
  /\ put_task (H := hex24) sample_env_readback_fails sample_id
       (Some [("completed"%string, JBool true)]) (Some ([] ++ sample_task :: []))
     = (respond 500 (Text "Error updating task"),
        Some ([] ++ updated sample_env_readback_fails
                      [("completed"%string, JBool true)] sample_task :: [])).
Proof.
  split; [reflexivity|].
  exact (put_readback_rejected (H := hex24) sample_env_readback_fails
           sample_id [("completed"%string, JBool true)] [] [] sample_task
           eq_refl (or_intror (ex_intro _ true eq_refl))
           eq_refl eq_refl eq_refl eq_refl).
Defined.

Lemma put_200_updated_witness :
  status (fst (put_task (H := hex24) sample_env sample_id
                 (Some [("completed"%string, JBool true)]) (Some [sample_task])))
  = 200%nat
  /\ exists (before : list Task) (t : Task) (after : list Task),
       [sample_task] = before ++ t :: after
       /\ _id t = ObjectId_new (Bson := hex24) sample_id.
Proof.
  split; [reflexivity|].
  destruct (put_200_updated (H := hex24) sample_env sample_id
              [("completed"%string, JBool true)] [sample_task] eq_refl)
    as (before & t & after & Hc & Hid & _).
  now exists before, t, after.
Defined.

Lemma delete_204_removed_witness :
  status (fst (delete_task (H := hex24) sample_env sample_id
                 (Some [sample_task]))) = 204%nat
  /\ exists (before : list Task) (t : Task) (after : list Task),
       [sample_task] = before ++ t :: after
       /\ length [sample_task] = S (length (before ++ after)).
Proof.
  split; [reflexivity|].
  destruct (delete_204_removed (H := hex24) sample_env sample_id
              [sample_task] eq_refl)
    as (before & t & after & Hc & _ & _ & _ & Hlen).
  now exists before, t, after.
Defined.

Lemma put_never_touches_unsupplied_witness :
  snd (put_task (H := hex24) sample_env sample_id
         (Some [("completed"%string, JBool true)]) (Some [sample_task]))
  = Some [updated sample_env [("completed"%string, JBool true)] sample_task]
  /\ map _id
       [updated sample_env [("completed"%string, JBool true)] sample_task]
     = map _id [sample_task].
Proof.
  split; [reflexivity|].
  exact (proj1 (proj2 (put_never_touches_unsupplied (H := hex24) sample_env
                         sample_id [("completed"%string, JBool true)]
                         [sample_task] _ eq_refl))).
Defined.

Lemma delete_error_responses_witness :
  ObjectId_isValid (Bson := hex24) (js "a1") = false
  /\ delete_task (H := hex24) sample_env (js "0000000000000000000000a2")
       (Some [sample_task])
     = (respond 404 (Message "Task not found"), Some [sample_task]).
Proof.
  split; [reflexivity|].
  exact (proj2 (delete_error_responses (H := hex24) sample_env (js "a1")
                  (js "0000000000000000000000a2") [sample_task]
                  eq_refl eq_refl eq_refl eq_refl)).
Defined.

Lemma create_then_delete_witness :
  ObjectId_new (Bson := hex24) (js "000000000000000000000001")
  = generated_id sample_env
  /\ delete_task (H := hex24) sample_env (js "000000000000000000000001")
       (snd (post_tasks sample_env (Some [("text"%string, JStr (js "buy milk"))])
               (Some [sample_task])))
     = (respond 204 NoBody, Some [sample_task]).
Proof.
  split; [reflexivity|].
  exact (create_then_delete (H := hex24) sample_env sample_env
           [("text"%string, JStr (js "buy milk"))]
           (js "000000000000000000000001") [sample_task]
           eq_refl eq_refl eq_refl eq_refl eq_refl eq_refl).
Defined.


Lemma sample_unique_one : unique_ids [sample_task].
Proof. unfold unique_ids. simpl. repeat constructor. intros []. Defined.

Lemma serve_all_unique_ids_witness :
  unique_ids [sample_task]
  /\ exists coll' : list Task,
       snd (serve_all (H := hex24)
              [(sample_env, POST_tasks (Some [("text"%string, JStr (js "walk dog"))]));
               (sample_env, POST_tasks (Some [("text"%string, JStr (js "again"))]));
               (sample_env, DELETE_tasks_id sample_id)]
              (Some [sample_task]))
       = Some coll'
       /\ unique_ids coll'.
Proof.
  split; [exact sample_unique_one|].
  destruct (serve_all_unique_ids (H := hex24)
              [(sample_env, POST_tasks (Some [("text"%string, JStr (js "walk dog"))]));
               (sample_env, POST_tasks (Some [("text"%string, JStr (js "again"))]));
               (sample_env, DELETE_tasks_id sample_id)]
              [sample_task] sample_unique_one)
    as (coll' & Hs & Hu & _).
  now exists coll'.
Defined.

End ServerMore.

(** ** More on the client: the handlers one by one and in sequence *)

Module AppMore.
Import App AppFacts.

Lemma fresh_above (h h' : heap) : h ⊆ h' -> h !! fresh (dom h') = None.
Proof.
  intros Hsub. destruct (h !! fresh (dom h')) as [c|] eqn:El; [|reflexivity].
  apply (lookup_weaken _ _ _ _ El) in Hsub. now rewrite fresh_unused in Hsub.
Qed.

Lemma toggled_id (taskId : Z) (t : Task) : id (toggled taskId t) = id t.
Proof. unfold toggled. now destruct (id t =? taskId). Qed.

Lemma toggled_other (taskId : Z) (ts : list Task) :
  (forall t, In t ts -> id t <> taskId) -> map (toggled taskId) ts = ts.
Proof.
  intros Hne. rewrite <- (map_id ts) at 2. apply map_ext_in.
  intros t Hin. unfold toggled.
  now destruct (Z.eqb_spec (id t) taskId) as [Heq|_]; [destruct (Hne t Hin)|].
Qed.

Lemma kept_other (taskId : Z) (ts : list Task) :
  (forall t, In t ts -> id t <> taskId) ->
  List.filter (fun t => negb (id t =? taskId)) ts = ts.
Proof.
  intros Hne. induction ts as [|t ts IH]; [reflexivity|].
  cbn [List.filter].
  destruct (Z.eqb_spec (id t) taskId) as [Heq|_];
    [now destruct (Hne t (or_introl eq_refl))|].
  cbn [negb]. rewrite IH; [reflexivity|].
  intros x Hx. apply Hne. now right.
Qed.

Lemma unique_others (before after : list Task) (t : Task) :
  List.NoDup (map id (before ++ t :: after)) ->
  (forall x, In x before -> id x <> id t)
  /\ (forall x, In x after -> id x <> id t).
Proof.
  rewrite map_app. cbn [map]. intros Hnd.
  apply List.NoDup_remove_2 in Hnd.
  split; intros x Hx Heq; apply Hnd, in_or_app; [left | right];
    rewrite <- Heq; now apply in_map.
Qed.

(** *** Adding *)

(** X16: pressing Add while the input is empty or all white space does
    nothing at all: the state is the same, input included, and nothing is
    allocated. *)
Theorem add_blank_does_nothing (Date_now : Z) (st : State) (h : heap) :
  blank (newTaskText st) = true ->
  handleAddTask Date_now st h = Some (st, h).
Proof.
  intros Hb. apply trim_nil in Hb. unfold handleAddTask. now rewrite Hb.
Qed.

(** X17: pressing Add with any other input puts one task at the end of
    the list, with the time of the click as its id, the input as typed,
    untrimmed, as its text, and not completed; the input is emptied; the
    list is a new array and every cell of the heap is left as it was. *)
Theorem add_appends (Date_now : Z) (st : State) (h : heap)
  (ts : list Task) :
  list_at h (tasks st) = Some ts ->
  blank (newTaskText st) = false ->
  exists (st' : State) (h' : heap),
    handleAddTask Date_now st h = Some (st', h')
    /\ list_at h' (tasks st')
       = Some (ts ++ [ {| id := Date_now; text := newTaskText st;
                          completed := false |} ])
    /\ newTaskText st' = []
    /\ h !! tasks st' = None
    /\ (forall (l : loc) (c : cell), h !! l = Some c -> h' !! l = Some c)
    /\ list_at h' (tasks st) = Some ts.
Proof.
  intros Hl Hb.
  destruct (handleAddTask_list Date_now st h ts Hl)
    as (st' & h' & Hadd & Hs & Hcase).
  rewrite Hb in Hcase. destruct Hcase as [Htxt Hl'].
  exists st', h'. split; [exact Hadd|]. split; [exact Hl'|].
  split; [exact Htxt|].
  split; [|split; [intros l c Hc; exact (lookup_weaken _ _ _ _ Hc Hs)
                  | now apply (list_at_extends h)]].
  revert Hadd. unfold handleAddTask.
  destruct (trim (newTaskText st)) as [|c r] eqn:Et.
  { apply trim_nil in Et. congruence. }
  apply list_at_elems in Hl as (elems & Harr & _).
  unfold bind, read_arr. rewrite Harr. unfold alloc, ret.
  intros [= <- _]. cbn [tasks]. apply fresh_above, alloc_extends.
Qed.

(** *** Deleting *)

(** X18: Delete gives the list without the tasks of the given id, the
    others in their order; the list is a new array, every cell of the heap
    is left as it was, and the input is kept. *)
Theorem delete_filters (taskId : Z) (st : State) (h : heap)
  (ts : list Task) :
  list_at h (tasks st) = Some ts ->
  exists (st' : State) (h' : heap),
    handleDeleteTask taskId st h = Some (st', h')
    /\ list_at h' (tasks st')
       = Some (List.filter (fun t => negb (id t =? taskId)) ts)
    /\ (forall t ts', list_at h' (tasks st') = Some ts' ->
                      In t ts' -> id t <> taskId /\ In t ts)
    /\ newTaskText st' = newTaskText st
    /\ h !! tasks st' = None
    /\ (forall (l : loc) (c : cell), h !! l = Some c -> h' !! l = Some c)
    /\ list_at h' (tasks st) = Some ts.
Proof.
  intros Hl.
  destruct (handleDeleteTask_list taskId st h ts Hl)
    as (st' & h' & Hdel & Hs & Htxt & Hl').
  exists st', h'. split; [exact Hdel|]. split; [exact Hl'|].
  split.
  { intros t ts'. rewrite Hl'. intros [= <-] Hin.
    apply filter_In in Hin as [Hin Hk]. split; [|exact Hin].
    intros Heq. apply Z.eqb_eq in Heq. now rewrite Heq in Hk. }
  split; [exact Htxt|].
  split; [|split; [intros l c Hc; exact (lookup_weaken _ _ _ _ Hc Hs)
                  | now apply (list_at_extends h)]].
  revert Hdel. apply list_at_elems in Hl as (elems & Harr & Hts).
  destruct (filter_elems_delete taskId elems h ts Hts) as (r & Hf & _).
  unfold handleDeleteTask, Array_filter, bind, read_arr.
  rewrite Harr, Hf. unfold alloc, ret.
  intros [= <- _]. cbn [tasks]. apply fresh_unused.
Qed.

(** *** Ids that are not there, ids that are there once *)

(** X19: toggling or deleting an id that no task of the list has gives
    the same list. *)
Theorem absent_id_same_list (taskId : Z) (st : State) (h : heap)
  (ts : list Task) :
  list_at h (tasks st) = Some ts ->
  (forall t, In t ts -> id t <> taskId) ->
  list_after (handleToggleComplete taskId st) h = Some ts
  /\ list_after (handleDeleteTask taskId st) h = Some ts.
Proof.
  intros Hl Hne. unfold list_after. split.
  - destruct (handleToggleComplete_list taskId st h ts Hl)
      as (st' & h' & -> & _ & _ & _ & ->).
    now rewrite toggled_other.
  - destruct (handleDeleteTask_list taskId st h ts Hl)
      as (st' & h' & -> & _ & _ & ->).
    now rewrite kept_other.
Qed.

(** X20: in a list whose ids are all different, a click on a task flips
    that task and leaves the tasks before and after it as they are, and
    its Delete button removes that task and no other. *)
Theorem unique_id_one_task (st : State) (h : heap)
  (before after : list Task) (t : Task) :
  list_at h (tasks st) = Some (before ++ t :: after) ->
  List.NoDup (map id (before ++ t :: after)) ->
  list_after (handleToggleComplete (id t) st) h
  = Some (before ++ flip t :: after)
  /\ list_after (handleDeleteTask (id t) st) h = Some (before ++ after).
Proof.
  intros Hl Hnd. apply unique_others in Hnd as [Hb Ha].
  unfold list_after. split.
  - destruct (handleToggleComplete_list (id t) st h _ Hl)
      as (st' & h' & -> & _ & _ & _ & ->).
    rewrite map_app. cbn [map].
    rewrite !toggled_other by assumption.
    unfold toggled at 1. now rewrite Z.eqb_refl.
  - destruct (handleDeleteTask_list (id t) st h _ Hl)
      as (st' & h' & -> & _ & _ & ->).
    rewrite List.filter_app. cbn [List.filter].
    rewrite !kept_other by assumption.
    now rewrite Z.eqb_refl.
Qed.

(** *** One handler after another *)

Lemma kept_toggled (i j : Z) (ts : list Task) :
  List.filter (fun t => negb (id t =? j)) (map (toggled i) ts)
  = map (toggled i) (List.filter (fun t => negb (id t =? j)) ts).
Proof.
  induction ts as [|t ts IH]; [reflexivity|].
  cbn [map List.filter]. rewrite toggled_id, IH.
  now destruct (negb (id t =? j)).
Qed.

Lemma toggled_swap (i j : Z) (t : Task) :
  toggled i (toggled j t) = toggled j (toggled i t).
Proof.
  unfold toggled.
  destruct (id t =? j) eqn:Ej, (id t =? i) eqn:Ei; cbn [flip id];
    rewrite ?Ej, ?Ei; reflexivity.
Qed.

Lemma kept_swap (i j : Z) (ts : list Task) :
  List.filter (fun t => negb (id t =? i))
    (List.filter (fun t => negb (id t =? j)) ts)
  = List.filter (fun t => negb (id t =? j))
      (List.filter (fun t => negb (id t =? i)) ts).
Proof.
  induction ts as [|t ts IH]; [reflexivity|].
  cbn [List.filter].
  destruct (negb (id t =? j)) eqn:Ej, (negb (id t =? i)) eqn:Ei;
    cbn [List.filter]; rewrite ?Ej, ?Ei, IH; reflexivity.
Qed.

Lemma kept_twice (i : Z) (ts : list Task) :
  List.filter (fun t => negb (id t =? i))
    (List.filter (fun t => negb (id t =? i)) ts)
  = List.filter (fun t => negb (id t =? i)) ts.
Proof.
  induction ts as [|t ts IH]; [reflexivity|].
  cbn [List.filter]. destruct (negb (id t =? i)) eqn:Ei; [|exact IH].
  cbn [List.filter]. now rewrite Ei, IH.
Qed.

Lemma toggle_then (i : Z) (k : State -> Js State) (st : State) (h : heap)
  (ts : list Task) :
  list_at h (tasks st) = Some ts ->
  exists (st' : State) (h' : heap),
    list_at h' (tasks st') = Some (map (toggled i) ts)
    /\ list_after (let* s := handleToggleComplete i st in k s) h
       = list_after (k st') h'.
Proof.
  intros Hl.
  destruct (handleToggleComplete_list i st h ts Hl)
    as (st' & h' & Htog & _ & _ & _ & Hl').
  exists st', h'. split; [exact Hl'|]. unfold list_after, bind.
  now rewrite Htog.
Qed.

Lemma delete_then (i : Z) (k : State -> Js State) (st : State) (h : heap)
  (ts : list Task) :
  list_at h (tasks st) = Some ts ->
  exists (st' : State) (h' : heap),
    list_at h' (tasks st')
    = Some (List.filter (fun t => negb (id t =? i)) ts)
    /\ list_after (let* s := handleDeleteTask i st in k s) h
       = list_after (k st') h'.
Proof.
  intros Hl.
  destruct (handleDeleteTask_list i st h ts Hl)
    as (st' & h' & Hdel & _ & _ & Hl').
  exists st', h'. split; [exact Hl'|]. unfold list_after, bind.
  now rewrite Hdel.
Qed.

Lemma list_after_toggle (i : Z) (st : State) (h : heap) (ts : list Task) :
  list_at h (tasks st) = Some ts ->
  list_after (handleToggleComplete i st) h = Some (map (toggled i) ts).
Proof.
  intros Hl. unfold list_after.
  now destruct (handleToggleComplete_list i st h ts Hl)
    as (st' & h' & -> & _ & _ & _ & ->).
Qed.

Lemma list_after_delete (i : Z) (st : State) (h : heap) (ts : list Task) :
  list_at h (tasks st) = Some ts ->
  list_after (handleDeleteTask i st) h
  = Some (List.filter (fun t => negb (id t =? i)) ts).
Proof.
  intros Hl. unfold list_after.
  now destruct (handleDeleteTask_list i st h ts Hl)
    as (st' & h' & -> & _ & _ & ->).
Qed.

(** X21: a toggle and a delete, two toggles, and two deletes give the
    same list in either order, whether the ids are the same or not. *)
Theorem handlers_commute (i j : Z) (st : State) (h : heap)
  (ts : list Task) :
  list_at h (tasks st) = Some ts ->
  (list_after (let* s := handleToggleComplete i st in
               handleDeleteTask j s) h
   = Some (List.filter (fun t => negb (id t =? j)) (map (toggled i) ts))
   /\ list_after (let* s := handleDeleteTask j st in
                  handleToggleComplete i s) h
      = Some (List.filter (fun t => negb (id t =? j)) (map (toggled i) ts)))
  /\ (list_after (let* s := handleToggleComplete i st in
                  handleToggleComplete j s) h
      = Some (map (toggled j) (map (toggled i) ts))
      /\ list_after (let* s := handleToggleComplete j st in
                     handleToggleComplete i s) h
         = Some (map (toggled j) (map (toggled i) ts)))
  /\ (list_after (let* s := handleDeleteTask i st in
                  handleDeleteTask j s) h
      = Some (List.filter (fun t => negb (id t =? j))
                (List.filter (fun t => negb (id t =? i)) ts))
      /\ list_after (let* s := handleDeleteTask j st in
                     handleDeleteTask i s) h
         = Some (List.filter (fun t => negb (id t =? j))
                   (List.filter (fun t => negb (id t =? i)) ts))).
Proof.
  intros Hl. repeat split.
  - destruct (toggle_then i (handleDeleteTask j) st h ts Hl)
      as (st' & h' & Hl' & ->).
    now apply list_after_delete.
  - destruct (delete_then j (handleToggleComplete i) st h ts Hl)
      as (st' & h' & Hl' & ->).
    rewrite kept_toggled. now apply list_after_toggle.
  - destruct (toggle_then i (handleToggleComplete j) st h ts Hl)
      as (st' & h' & Hl' & ->).
    now apply list_after_toggle.
  - destruct (toggle_then j (handleToggleComplete i) st h ts Hl)
      as (st' & h' & Hl' & ->).
    rewrite (list_after_toggle i st' h' _ Hl'). f_equal.
    rewrite !map_map. apply map_ext. intros t. apply toggled_swap.
  - destruct (delete_then i (handleDeleteTask j) st h ts Hl)
      as (st' & h' & Hl' & ->).
    now apply list_after_delete.
  - destruct (delete_then j (handleDeleteTask i) st h ts Hl)
      as (st' & h' & Hl' & ->).
    rewrite (list_after_delete i st' h' _ Hl'). f_equal. apply kept_swap.
Qed.

(** X22: deleting an id a second time changes nothing: the list is the
    one that the first delete gave. *)
Theorem delete_twice (i : Z) (st : State) (h : heap) (ts : list Task) :
  list_at h (tasks st) = Some ts ->
  list_after (let* s := handleDeleteTask i st in handleDeleteTask i s) h
  = list_after (handleDeleteTask i st) h
  /\ list_after (handleDeleteTask i st) h
     = Some (List.filter (fun t => negb (id t =? i)) ts).
Proof.
  intros Hl.
  destruct (delete_then i (handleDeleteTask i) st h ts Hl)
    as (st' & h' & Hl' & ->).
  rewrite (list_after_delete i st' h' _ Hl'), (list_after_delete i st h ts Hl).
  now rewrite kept_twice.
Qed.

(** *** The order and the ids of the list *)

Lemma expected_ids (evs : list Event) :
  forall pending : jsstring,
    map id (expected pending evs) `sublist_of` add_times evs.
Proof.
  induction evs as [|ev evs IH]; intros pending; [constructor|].
  destruct ev as [value|Date_now|taskId|taskId];
    cbn [expected add_times]; try apply IH.
  destruct (blank pending); [apply sublist_cons, IH|].
  unfold survivor. cbn [id].
  destruct (existsb _ evs); cbn [app map id];
    [apply sublist_cons | apply sublist_skip]; apply IH.
Qed.

(** X23: the tasks of the list stand in the order in which they were
    added: after any events from the first render, the ids of the list
    are, in order, some of the times at which Add was pressed, and the
    list is no longer than the number of those clicks. *)
Theorem tasks_in_order_of_addition (evs : list Event) :
  exists (st : State) (h : heap) (ts : list Task),
    run evs (fst initial) (snd initial) = Some (st, h)
    /\ list_at h (tasks st) = Some ts
    /\ map id ts `sublist_of` add_times evs
    /\ (length ts <= length (add_times evs))%nat.
Proof.
  destruct (run_list evs (fst initial) (snd initial) [] eq_refl)
    as (st & h & Hrun & _ & _ & Hl).
  exists st, h, (expected [] evs).
  split; [exact Hrun|]. split; [exact Hl|].
  pose proof (expected_ids evs []) as Hsub.
  split; [exact Hsub|].
  apply sublist_length in Hsub. now rewrite length_map in Hsub.
Qed.

(** X24: when no two clicks on Add fall in the same millisecond, the ids
    of the list are all different. *)
Theorem distinct_times_distinct_ids (evs : list Event) :
  List.NoDup (add_times evs) ->
  exists (st : State) (h : heap) (ts : list Task),
    run evs (fst initial) (snd initial) = Some (st, h)
    /\ list_at h (tasks st) = Some ts
    /\ List.NoDup (map id ts).
Proof.
  intros Hnd.
  destruct (run_list evs (fst initial) (snd initial) [] eq_refl)
    as (st & h & Hrun & _ & _ & Hl).
  exists st, h, (expected [] evs).
  split; [exact Hrun|]. split; [exact Hl|].
  apply NoDup_ListNoDup. apply NoDup_ListNoDup in Hnd.
  eapply sublist_NoDup; [exact Hnd | apply expected_ids].
Qed.

(** *** The theorems on concrete lists *)

Lemma add_blank_does_nothing_witness :
  blank (newTaskText {| tasks := 1%positive; newTaskText := js "  " |})
  = true
  /\ handleAddTask 12 {| tasks := 1%positive; newTaskText := js "  " |}
       sample_heap
     = Some ({| tasks := 1%positive; newTaskText := js "  " |}, sample_heap).
Proof.
  split; [reflexivity|].
  exact (add_blank_does_nothing 12
           {| tasks := 1%positive; newTaskText := js "  " |} sample_heap
           eq_refl).
Defined.

Lemma add_appends_witness :
  blank (js " feed cat") = false
  /\ exists (st' : State) (h' : heap),
       handleAddTask 12
         {| tasks := 1%positive; newTaskText := js " feed cat" |} sample_heap
       = Some (st', h')
       /\ list_at h' (tasks st')
          = Some [ {| id := 10; text := js "buy milk"; completed := false |};
                   {| id := 11; text := js "walk dog"; completed := true |};
                   {| id := 12; text := js " feed cat"; completed := false |} ].
Proof.
  split; [reflexivity|].
  destruct (add_appends 12
              {| tasks := 1%positive; newTaskText := js " feed cat" |}
              sample_heap _ eq_refl eq_refl)
    as (st' & h' & Hadd & Hl & _).
  now exists st', h'.
Defined.

Lemma delete_filters_witness :
  list_at sample_heap (tasks sample_state)
  = Some [ {| id := 10; text := js "buy milk"; completed := false |};
           {| id := 11; text := js "walk dog"; completed := true |} ]
  /\ exists (st' : State) (h' : heap),
       handleDeleteTask 10 sample_state sample_heap = Some (st', h')
       /\ list_at h' (tasks st')
          = Some [ {| id := 11; text := js "walk dog"; completed := true |} ].
Proof.
  split; [reflexivity|].
  destruct (delete_filters 10 sample_state sample_heap _ eq_refl)
    as (st' & h' & Hdel & Hl & _).
  now exists st', h'.
Defined.

Lemma sample_ids_differ (t : Task) :
  In t [ {| id := 10; text := js "buy milk"; completed := false |};
         {| id := 11; text := js "walk dog"; completed := true |} ] ->
  id t <> 12.
Proof. intros [<-|[<-|[]]]; discriminate. Defined.

Lemma absent_id_same_list_witness :
  list_after (handleToggleComplete 12 sample_state) sample_heap
  = Some [ {| id := 10; text := js "buy milk"; completed := false |};
           {| id := 11; text := js "walk dog"; completed := true |} ]
  /\ list_after (handleDeleteTask 12 sample_state) sample_heap
     = Some [ {| id := 10; text := js "buy milk"; completed := false |};
              {| id := 11; text := js "walk dog"; completed := true |} ].
Proof.
  exact (absent_id_same_list 12 sample_state sample_heap _ eq_refl
           sample_ids_differ).
Defined.

Lemma sample_ids_unique :
  List.NoDup
    (map id ([] ++ {| id := 10; text := js "buy milk"; completed := false |}
                :: [ {| id := 11; text := js "walk dog";
                        completed := true |} ])).
Proof.
  cbn. constructor; [intros [Heq|[]]; discriminate|].
  constructor; [intros []|constructor].
Defined.

Lemma unique_id_one_task_witness :
  list_after (handleToggleComplete 10 sample_state) sample_heap
  = Some ([] ++ {| id := 10; text := js "buy milk"; completed := true |}
             :: [ {| id := 11; text := js "walk dog"; completed := true |} ])
  /\ list_after (handleDeleteTask 10 sample_state) sample_heap
     = Some ([] ++ [ {| id := 11; text := js "walk dog";
                        completed := true |} ]).
Proof.
  exact (unique_id_one_task sample_state sample_heap []
           [ {| id := 11; text := js "walk dog"; completed := true |} ]
           {| id := 10; text := js "buy milk"; completed := false |}
           eq_refl sample_ids_unique).
Defined.

Lemma handlers_commute_witness :
  list_after (let* s := handleToggleComplete 11 sample_state in
              handleDeleteTask 10 s) sample_heap
  = Some [ {| id := 11; text := js "walk dog"; completed := false |} ]
  /\ list_after (let* s := handleDeleteTask 10 sample_state in
                 handleToggleComplete 11 s) sample_heap
     = Some [ {| id := 11; text := js "walk dog"; completed := false |} ].
Proof.
  exact (proj1 (handlers_commute 11 10 sample_state sample_heap _ eq_refl)).
Defined.

Lemma delete_twice_witness :
  list_after (let* s := handleDeleteTask 10 sample_state in
              handleDeleteTask 10 s) sample_heap
  = list_after (handleDeleteTask 10 sample_state) sample_heap
  /\ list_after (handleDeleteTask 10 sample_state) sample_heap
     = Some [ {| id := 11; text := js "walk dog"; completed := true |} ].
Proof.
  exact (delete_twice 10 sample_state sample_heap _ eq_refl).
Defined.

Lemma distinct_times_distinct_ids_witness :
  List.NoDup (add_times [Change (js "a"); ClickAdd 10; Change (js "b");
                         ClickAdd 11; ClickToggle 10])
  /\ exists (st : State) (h : heap) (ts : list Task),
       run [Change (js "a"); ClickAdd 10; Change (js "b"); ClickAdd 11;
            ClickToggle 10] (fst initial) (snd initial) = Some (st, h)
       /\ list_at h (tasks st) = Some ts
       /\ List.NoDup (map id ts).
Proof.
  assert (Hnd : List.NoDup (add_times [Change (js "a"); ClickAdd 10;
                                       Change (js "b"); ClickAdd 11;
                                       ClickToggle 10])).
  { cbn. constructor; [intros [Heq|[]]; discriminate|].
    constructor; [intros []|constructor]. }
  split; [exact Hnd|].
  exact (distinct_times_distinct_ids _ Hnd).
Defined.

End AppMore.
